(** * lms_project: a shallow embedding of the course platform's views

    The repository is a Django application.  Its own code (the views of
    [auth_app] and [learning], and the [post_save] receiver of [auth_app])
    is embedded below as executable functions over an explicit state:
    the relational tables the views read and write, the cache, the log of
    custom signals, the session and the cookies.  What the views call in
    the framework (decorators, mixins, generic views, the session and
    cache API) is embedded in [Module Framework], each definition next to
    the name of the framework function it stands for. *)

From stdpp Require Import base option list gmap strings pretty.

Local Open Scope Z_scope.

(** ** The framework the views are written against *)
Module Framework.

(** *** Rows of the tables *)

(** [auth_app.models.User] (an [AbstractUser]): the primary key, the login
    key and what the permission backend reads. *)
Record User := mkUser {
  user_pk : Z;
  email : string;
  is_active : bool;
  is_superuser : bool;
  user_permissions : list string
}.

(** [django.contrib.auth.models.Group]. *)
Record Group := mkGroup {
  group_pk : Z;
  group_name : string;
  group_permissions : list string
}.

(** Modelled from the spec: [learning/models.py] is absent.  A course has
    a title, a description and a start date (the columns the admin lists);
    its authors are the relation [course_authors] below. *)
Record Course := mkCourse {
  course_pk : Z;
  title : string;
  description : string;
  start_date : string
}.

(** Modelled from the spec: a lesson belongs to one course and has a name
    and a preview. *)
Record Lesson := mkLesson {
  lesson_pk : Z;
  lesson_course : Z;
  lesson_name : string;
  preview : string
}.

(** The three fields [enroll] gives a row:
    [Tracking(lesson=..., user=..., passed=...)], both foreign keys held by
    primary key. *)
Record Tracking := mkTracking {
  tr_lesson : Z;
  tr_user : Z;
  passed : bool
}.

(** The tables.  The two many-to-many relations are their join tables:
    [user_groups] holds (user, group) and [course_authors] holds
    (course, user). *)
Record DB := mkDB {
  groups : list Group;
  user_groups : list (Z * Z);
  courses : list Course;
  course_authors : list (Z * Z);
  lessons : list Lesson;
  trackings : list Tracking
}.

Definition set_user_groups (f : list (Z * Z) → list (Z * Z)) (d : DB) : DB :=
  mkDB (groups d) (f (user_groups d)) (courses d) (course_authors d)
       (lessons d) (trackings d).
Definition set_courses (f : list Course → list Course) (d : DB) : DB :=
  mkDB (groups d) (user_groups d) (f (courses d)) (course_authors d)
       (lessons d) (trackings d).
Definition set_course_authors (f : list (Z * Z) → list (Z * Z)) (d : DB) : DB :=
  mkDB (groups d) (user_groups d) (courses d) (f (course_authors d))
       (lessons d) (trackings d).
Definition set_trackings (f : list Tracking → list Tracking) (d : DB) : DB :=
  mkDB (groups d) (user_groups d) (courses d) (course_authors d)
       (lessons d) (f (trackings d)).

(** *** Requests, responses, cookies *)

(** A target of [reverse]/[redirect]: the name of a URL pattern of
    [learning/urls.py] with its keyword arguments, or the login page. *)
Inductive Url :=
| UrlName (name : string) (kwargs : list (string * Z))
| LoginUrl.

Record Cookie := mkCookie {
  cookie_value : string;
  cookie_max_age : option Z;
  cookie_secure : bool;
  cookie_httponly : bool;
  cookie_samesite : string
}.

Record Response := mkResponse {
  status : Z;
  location : option Url;
  content : string;
  cookies : gmap string Cookie
}.

Definition HttpResponse (body : string) : Response :=
  mkResponse 200 None body ∅.
Definition HttpResponseRedirect (to : Url) : Response :=
  mkResponse 302 (Some to) "" ∅.
Definition reverse (name : string) (kwargs : list (string * Z)) : Url :=
  UrlName name kwargs.
Definition redirect (to : Url) : Response := HttpResponseRedirect to.
(** [render(request, template, ...)] and the generic views' template
    responses: status 200, the template named in [content]. *)
Definition render (template : string) : Response :=
  mkResponse 200 None template ∅.
Definition HttpResponseNotAllowed : Response := mkResponse 405 None "" ∅.
(** [response.set_cookie(key, value, ...)]. *)
Definition set_cookie (key : string) (c : Cookie) (r : Response) : Response :=
  mkResponse (status r) (location r) (content r) (<[key := c]> (cookies r)).

(** [request.user] is [None] for [AnonymousUser]. *)
Record Request := mkRequest {
  method : string;
  user : option User;
  GET : gmap string string;
  POST : gmap string string;
  COOKIES : gmap string string
}.

(** *** Exceptions, and the state-and-exception monad of a view *)

Inductive Exn :=
| PermissionDenied
| Http404
| AttributeError
| ValueError
| KeyError
| OperationalError
| ReceiverError.

Inductive Outcome (St A : Type) :=
| Ok (a : A) (s : St)
| Raise (e : Exn) (s : St).
Arguments Ok {St A} a s.
Arguments Raise {St A} e s.

Definition M (St A : Type) : Type := St → Outcome St A.

Definition ret {St A} (a : A) : M St A := λ s, Ok a s.
Definition bind {St A B} (m : M St A) (k : A → M St B) : M St B :=
  λ s, match m s with
       | Ok a s' => k a s'
       | Raise e s' => Raise e s'
       end.
Definition raise {St A} (e : Exn) : M St A := λ s, Raise e s.
Definition gets {St A} (f : St → A) : M St A := λ s, Ok (f s) s.
Definition modify {St} (f : St → St) : M St unit := λ s, Ok tt (f s).

Definition final_state {St A} (o : Outcome St A) : St :=
  match o with Ok _ s => s | Raise _ s => s end.

(** [x ← m; k] and [m;; k] are stdpp's notations for [bind]. *)
#[global] Instance M_ret St : MRet (M St) := λ A, ret.
#[global] Instance M_bind St : MBind (M St) := λ A B k m, bind m k.

(** *** The state a view of [learning] runs against *)

(** What [django.core.cache] holds: the evaluated querysets the views
    store. *)
Inductive CacheVal :=
| CachedCourses (cs : list Course)
| CachedLessons (ls : list Lesson).

(** The custom signals of [learning/signals.py] that the views send. *)
Inductive SignalEvent :=
| course_enroll (uid : Z) (course : Z)
| get_certificate (uid : Z).

(** [faults] is the environment's schedule for the write statements still
    to come: [true] makes the next one raise [OperationalError] (a lock
    timeout, a lost connection); the empty schedule lets every write
    through. *)
Record World := mkWorld {
  db : DB;
  cache : gmap string CacheVal;
  signals : list SignalEvent;
  faults : list bool
}.

Definition set_db (d : DB) (w : World) : World :=
  mkWorld d (cache w) (signals w) (faults w).
Definition set_cache (c : gmap string CacheVal) (w : World) : World :=
  mkWorld (db w) c (signals w) (faults w).
Definition set_signals (l : list SignalEvent) (w : World) : World :=
  mkWorld (db w) (cache w) l (faults w).
Definition set_faults (f : list bool) (w : World) : World :=
  mkWorld (db w) (cache w) (signals w) f.

(** One write statement (INSERT, UPDATE, DELETE) sent to the database. *)
Definition db_write (f : DB → DB) : M World unit :=
  λ w, match faults w with
       | true :: fs => Raise OperationalError (set_faults fs w)
       | false :: fs => Ok tt (set_faults fs (set_db (f (db w)) w))
       | [] => Ok tt (set_db (f (db w)) w)
       end.

(** [transaction.atomic], as a decorator or a [with] block: when the body
    raises, the tables are rolled back to what they were on entry and the
    exception goes on; the cache and what receivers did are not undone. *)
Definition atomic {A} (body : M World A) : M World A :=
  λ w, match body w with
       | Ok a w' => Ok a w'
       | Raise e w' => Raise e (set_db (db w) w')
       end.

(** [cache.delete(key)] and [cache.delete_many(keys)]. *)
Definition cache_delete (key : string) : M World unit :=
  modify (λ w, set_cache (delete key (cache w)) w).
Definition cache_delete_many (keys : list string) : M World unit :=
  modify (λ w, set_cache (foldr delete (cache w) keys) w).

(** *** Permissions ([ModelBackend]) and the access decorators *)

Definition group_pks_of (d : DB) (uid : Z) : list Z :=
  (filter (λ ug, ug.1 = uid) (user_groups d)).*2.

Definition group_perms (d : DB) (uid : Z) : list string :=
  g ← filter (λ g, group_pk g ∈ group_pks_of d uid) (groups d);
  group_permissions g.

(** [user.has_perm(perm)]: an active superuser has every permission;
    otherwise an active user has those granted to them or to one of
    their groups. *)
Definition has_perm (d : DB) (u : User) (perm : string) : bool :=
  is_active u &&
  (is_superuser u
   || bool_decide (perm ∈ user_permissions u ++ group_perms d (user_pk u))).

(** [@login_required]: anonymous requests are sent to the login page. *)
Definition login_required (req : Request) (view : User → M World Response)
  : M World Response :=
  match user req with
  | Some u => view u
  | None => mret (HttpResponseRedirect LoginUrl)
  end.

(** [@permission_required(perm, raise_exception=...)]. *)
Definition permission_required (perm : string) (raise_exception : bool)
    (u : User) (view : M World Response) : M World Response :=
  ok ← gets (λ w, has_perm (db w) u perm);
  if ok : bool then view
  else if raise_exception then raise PermissionDenied
  else mret (HttpResponseRedirect LoginUrl).

(** [AccessMixin.handle_no_permission] with the default
    [raise_exception = False]. *)
Definition handle_no_permission (req : Request) : M World Response :=
  match user req with
  | Some _ => raise PermissionDenied
  | None => mret (HttpResponseRedirect LoginUrl)
  end.

(** [LoginRequiredMixin.dispatch] followed by
    [PermissionRequiredMixin.dispatch], the order of the bases of the three
    course views. *)
Definition LoginRequired_PermissionRequired (perm : string) (req : Request)
    (dispatch : User → M World Response) : M World Response :=
  match user req with
  | None => handle_no_permission req
  | Some u =>
      ok ← gets (λ w, has_perm (db w) u perm);
      if ok : bool then dispatch u else handle_no_permission req
  end.

(** [View.dispatch] of a form view: [ProcessFormView] has [get], [post]
    and [put] (which calls [post]); [head] falls back to [get]; [options]
    answers by itself; any other method is not allowed. *)
Definition View_dispatch (req : Request) (get post : M World Response)
  : M World Response :=
  if bool_decide (method req = "POST") || bool_decide (method req = "PUT")
  then post
  else if bool_decide (method req = "GET") || bool_decide (method req = "HEAD")
  then get
  else if bool_decide (method req = "OPTIONS") then mret (HttpResponse "")
  else mret HttpResponseNotAllowed.

(** [View.dispatch] of a [DeleteView]: it has [get], [post] and [delete],
    and no [put]; [head] falls back to [get] and [options] answers by
    itself. *)
Definition DeleteView_dispatch (req : Request) (get post delete : M World Response)
  : M World Response :=
  if bool_decide (method req = "POST") then post
  else if bool_decide (method req = "DELETE") then delete
  else if bool_decide (method req = "GET") || bool_decide (method req = "HEAD")
  then get
  else if bool_decide (method req = "OPTIONS") then mret (HttpResponse "")
  else mret HttpResponseNotAllowed.

(** *** Sessions ([SessionBase]) *)

(** What the views keep in a session: strings and lists of keys. *)
Inductive SessionVal :=
| SStr (s : string)
| SList (l : list Z).

(** The session dictionary, the expiry chosen with [set_expiry]
    ([None]: the site default) and the [modified] flag. *)
Record Session := mkSession {
  session_data : gmap string SessionVal;
  expiry : option Z;
  modified : bool
}.

(** [session[key] = value]. *)
Definition session_setitem (key : string) (v : SessionVal) (s : Session)
  : Session :=
  mkSession (<[key := v]> (session_data s)) (expiry s) true.
(** [session.set_expiry(value)] with an integer number of seconds. *)
Definition session_set_expiry (value : Z) (s : Session) : Session :=
  mkSession (session_data s) (Some value) true.
(** [session.modified = True]. *)
Definition session_set_modified (s : Session) : Session :=
  mkSession (session_data s) (expiry s) true.
(** [session.get_expire_at_browser_close()], given the setting
    [SESSION_EXPIRE_AT_BROWSER_CLOSE]. *)
Definition get_expire_at_browser_close (setting : bool) (s : Session) : bool :=
  match expiry s with
  | None => setting
  | Some e => bool_decide (e = 0)
  end.

(** A value of Python that is a string or an integer. *)
Inductive PyVal :=
| PyStr (s : string)
| PyInt (n : Z).

(** [str(v)] of a string or [None], which is how [SimpleCookie] encodes
    the value it is given. *)
Definition str (v : option string) : string := default "None" v.

(** The cookie jar of a browser after a response: the cookies the
    response sets replace those of the same name. *)
Definition browser_store (r : Response) (jar : gmap string string)
  : gmap string string :=
  (cookie_value <$> cookies r) ∪ jar.

(** *** Cached querysets *)

(** The cache with its timeouts: the world, the time of the request
    ([time.time()], in seconds) and, for each entry stored with a timeout,
    the time at which it expires. *)
Record Timed := mkTimed {
  timed_world : World;
  now : Z;
  deadlines : gmap string Z
}.

(** [cache.get(key)]: an entry whose deadline has come is gone. *)
Definition cache_get (key : string) (tw : Timed) : option CacheVal :=
  match deadlines tw !! key with
  | Some deadline =>
      if bool_decide (deadline ≤ now tw) then None
      else cache (timed_world tw) !! key
  | None => cache (timed_world tw) !! key
  end.

(** [cache.set(key, value, timeout)]: the entry expires [timeout] seconds
    after the request. *)
Definition cache_set (key : string) (v : CacheVal) (timeout : Z) (tw : Timed)
  : Timed :=
  mkTimed (set_cache (<[key := v]> (cache (timed_world tw))) (timed_world tw))
          (now tw)
          (<[key := now tw + timeout]> (deadlines tw)).

(** [cache.get_or_set(key, default, timeout)] with a queryset as default:
    a live entry under the key is returned as it is; otherwise the
    queryset is evaluated against the tables, stored with the timeout and
    returned. *)
Definition cache_get_or_set (key : string) (default : DB → CacheVal)
    (timeout : Z) : M Timed CacheVal :=
  λ tw, match cache_get key tw with
        | Some v => Ok v tw
        | None =>
            let v := default (db (timed_world tw)) in
            Ok v (cache_set key v timeout tw)
        end.

(** A worker process: the world it shares with the others, and the rows
    held by the queryset that is the class attribute [MainView.queryset].
    That queryset is built once, when the module is imported, and is the
    same object for every request of the process; it holds no rows
    ([None]) until something evaluates it, and keeps them from then on. *)
Record Process := mkProcess {
  world : World;
  MainView_queryset : option (list Course)
}.

(** A view of the world, run in a process. *)
Definition on_world {A} (m : M World A) : M Process A :=
  λ p, match m (world p) with
       | Ok a w => Ok a (mkProcess w (MainView_queryset p))
       | Raise e w => Raise e (mkProcess w (MainView_queryset p))
       end.

End Framework.


(** ** learning/views.py *)
Module Learning.
Import Framework.

Section Views.

(** [learning/signals.py] is absent from the sources: whether
    the receivers connected to a signal raise is left open. *)
Variable receiver_raises : SignalEvent → bool.

(** [Signal.send]: every receiver is called, and an exception raised by
    one of them goes on to the sender. *)
Definition Signal_send (ev : SignalEvent) : M World unit :=
  modify (λ w, set_signals (signals w ++ [ev]) w);;
  if receiver_raises ev then raise ReceiverError else mret tt.

(** *** Querysets *)

(** [Tracking.objects.filter(lesson__course=course_id, user=user)]: the
    rows of the user whose lesson, looked up by its key, belongs to the
    course. *)
Definition Tracking_filter (d : DB) (course_id uid : Z) : list Tracking :=
  filter (λ t, tr_user t = uid ∧
               Exists (λ l, lesson_pk l = tr_lesson t ∧
                            lesson_course l = course_id) (lessons d))
         (trackings d).

(** [Lesson.objects.filter(course=course_id)]. *)
Definition Lesson_filter (d : DB) (course_id : Z) : list Lesson :=
  filter (λ l, lesson_course l = course_id) (lessons d).

(** [Count('lesson__course')]: the rows whose joined column is not
    null, which is every row the filter kept. *)
Definition Count (rows : list Tracking) : Z := Z.of_nat (length rows).

(** [Sum('passed')]: [None] over no rows, else the booleans added up. *)
Definition Sum (rows : list Tracking) : option Z :=
  match rows with
  | [] => None
  | _ => Some (foldr (λ t acc, (if passed t then 1 else 0) + acc) 0 rows)
  end.

(** [Tracking.objects.bulk_create(records)]: nothing is sent for an
    empty list, one INSERT otherwise. *)
Definition bulk_create (records : list Tracking) : M World unit :=
  match records with
  | [] => mret tt
  | _ => db_write (set_trackings (λ l, l ++ records))
  end.

(** *** get_certificate_view *)

Definition certificate_sent : string := "Сертификат отправлен на Ваш email".
Definition course_not_completed : string := "Вы не прошли полностью курс".

Definition get_certificate_view (req : Request) (course_id : Z)
  : M World Response :=
  login_required req (λ request_user,
    rows ← gets (λ w, Tracking_filter (db w) course_id (user_pk request_user));
    let total_passed := Count rows in
    let fact_passed := Sum rows in
    if bool_decide (Some total_passed = fact_passed) then
      Signal_send (get_certificate (user_pk request_user));;
      mret (HttpResponse certificate_sent)
    else
      mret (HttpResponse course_not_completed)).

(** *** enroll *)

Definition already_enrolled : string := "Вы уже записаны на данный курс".

Definition enroll (req : Request) (course_id : Z) : M World Response :=
  atomic (
    login_required req (λ request_user,
      permission_required "learning.add_tracking" true request_user (
        is_existed ← gets (λ w,
          bool_decide (Tracking_filter (db w) course_id (user_pk request_user) ≠ []));
        if is_existed : bool then
          mret (HttpResponse already_enrolled)
        else
          lessons ← gets (λ w, Lesson_filter (db w) course_id);
          let records :=
            (λ lesson, mkTracking (lesson_pk lesson) (user_pk request_user) false)
              <$> lessons in
          bulk_create records;;
          Signal_send (course_enroll (user_pk request_user) course_id);;
          mret (redirect (reverse "tracking" []))))).


(** *** The course views *)

(** The cleaned data of a valid [CourseForm]. *)
Record CourseData := mkCourseData {
  data_title : string;
  data_description : string;
  data_start_date : string
}.

(** [learning/forms.py] is absent from the sources: [CourseForm]
    maps the posted fields to the cleaned data, or to [None] when the
    form has errors. *)
Variable CourseForm : gmap string string → option CourseData.

(** [learning/models.py] is absent from the sources: what
    [course.delete()] removes besides the row itself depends on the
    [on_delete] rules declared there. *)
Variable Course_delete : Z → DB → DB.

(** The key the database gives to a new row. *)
Definition fresh_pk (pks : list Z) : Z := 1 + foldr Z.max 0 pks.

(** [course.save()] of an instance without a key: one INSERT. *)
Definition Course_insert (data : CourseData) : M World Course :=
  pk ← gets (λ w, fresh_pk (course_pk <$> courses (db w)));
  let course :=
    mkCourse pk (data_title data) (data_description data)
             (data_start_date data) in
  db_write (set_courses (λ l, l ++ [course]));;
  mret course.

(** [form.save()] on an existing instance: one UPDATE by key. *)
Definition Course_update (obj : Course) (data : CourseData) : M World Course :=
  let course :=
    mkCourse (course_pk obj) (data_title data) (data_description data)
             (data_start_date data) in
  db_write (set_courses
    (fmap (λ c, if bool_decide (course_pk c = course_pk obj) then course else c)));;
  mret course.

(** [course.authors.add(user)]: the pair is inserted unless the relation
    already holds it. *)
Definition authors_add (course uid : Z) : M World unit :=
  present ← gets (λ w, bool_decide ((course, uid) ∈ course_authors (db w)));
  if present : bool then mret tt
  else db_write (set_course_authors (λ l, l ++ [(course, uid)])).

(** [SingleObjectMixin.get_object] over
    [Course.objects.filter(id=course_id)]. *)
Definition get_object (course_id : Z) : M World Course :=
  found ← gets (λ w, head (filter (λ c, course_pk c = course_id)
                                  (courses (db w))));
  match found with
  | Some obj => mret obj
  | None => raise Http404
  end.

Definition CourseCreateView_form_valid (request_user : User)
    (form : CourseData) : M World Response :=
  atomic (
    course ← Course_insert form;
    authors_add (course_pk course) (user_pk request_user);;
    cache_delete "courses";;
    mret (redirect (reverse "create_lesson"
                            [("course_id", course_pk course)]))).

Definition CourseCreateView (req : Request) : M World Response :=
  LoginRequired_PermissionRequired "learning.add_course" req
    (λ request_user,
       View_dispatch req
         (mret (render "create.html"))
         (match CourseForm (POST req) with
          | Some form => CourseCreateView_form_valid request_user form
          | None => mret (render "create.html")
          end)).

(** [CourseUpdateView] overrides [get_queryset] and [get_success_url]
    only: [form_valid] is [ModelFormMixin]'s, which saves the form and
    redirects. *)
Definition CourseUpdateView (req : Request) (course_id : Z)
  : M World Response :=
  LoginRequired_PermissionRequired "learning.change_course" req
    (λ _,
       View_dispatch req
         (_ ← get_object course_id; mret (render "create.html"))
         (obj ← get_object course_id;
          match CourseForm (POST req) with
          | Some form =>
              obj' ← Course_update obj form;
              mret (HttpResponseRedirect
                      (reverse "detail" [("course_id", course_pk obj')]))
          | None => mret (render "create.html")
          end)).

(** f"course_{course_id}_lessons" *)
Definition lessons_key (course_id : Z) : string :=
  "course_" +:+ pretty course_id +:+ "_lessons".

(** The form of a [DeleteView] has no field: it is always valid. *)
Definition CourseDeleteView_form_valid (obj : Course) (course_id : Z)
  : M World Response :=
  cache_delete_many ["courses"; lessons_key course_id];;
  db_write (Course_delete (course_pk obj));;
  mret (HttpResponseRedirect (reverse "index" [])).

(** [post] validates the form and calls [form_valid]; [delete], the
    handler of the HTTP method DELETE, is [DeletionMixin.delete], which
    deletes the object and redirects without calling [form_valid]. *)
Definition CourseDeleteView (req : Request) (course_id : Z)
  : M World Response :=
  LoginRequired_PermissionRequired "learning.delete_course" req
    (λ _,
       DeleteView_dispatch req
         (_ ← get_object course_id; mret (render "delete.html"))
         (obj ← get_object course_id;
          CourseDeleteView_form_valid obj course_id)
         (obj ← get_object course_id;
          db_write (Course_delete (course_pk obj));;
          mret (HttpResponseRedirect (reverse "index" [])))).

(** *** Favourites, kept in the session *)

(** [list.remove(x)]: the list without the first [x], or [None] when
    there is none (a [ValueError]). *)
Fixpoint list_remove (x : Z) (l : list Z) : option (list Z) :=
  match l with
  | [] => None
  | y :: l' => if bool_decide (y = x) then Some l'
               else cons y <$> list_remove x l'
  end.

Definition add_booking (req : Request) (course_id : Z) : M Session Response :=
  (if bool_decide (method req = "POST") then
     stored ← gets (λ s, session_data s !! "favourites");
     match stored with
     | Some (SStr _) => raise AttributeError
     | Some (SList favourites) =>
         modify (session_setitem "favourites" (SList (favourites ++ [course_id])));;
         modify session_set_modified
     | None =>
         modify (session_setitem "favourites" (SList ([] ++ [course_id])));;
         modify session_set_modified
     end
   else mret tt);;
  mret (redirect (reverse "index" [])).

(** The list that [session.get('favourites')] returns is the one the
    session holds: [remove] changes it in place. *)
Definition remove_booking (req : Request) (course_id : Z) : M Session Response :=
  (if bool_decide (method req = "POST") then
     stored ← gets (λ s, session_data s !! "favourites");
     match stored with
     | None => raise AttributeError
     | Some (SStr _) => raise AttributeError
     | Some (SList favourites) =>
         match list_remove course_id favourites with
         | None => raise ValueError
         | Some favourites' =>
             modify (λ s, mkSession (<["favourites" := SList favourites']> (session_data s))
                                    (expiry s) (modified s));;
             modify session_set_modified
         end
     end
   else mret tt);;
  mret (redirect (reverse "index" [])).

(** *** The pagination preference *)

Definition settings_saved : string := "Настройки успешно сохранены!".

(** [SettingFormView.post]; what it prints is not modelled. *)
Definition SettingFormView_post (req : Request) : Response :=
  let paginate_by := POST req !! "paginate_by" in
  let response :=
    mkResponse 302 (Some (reverse "index" [])) settings_saved ∅ in
  set_cookie "paginate_by"
    (mkCookie (str paginate_by) (Some (60 * 60 * 24 * 365)) false false "Lax")
    response.

(** [MainView.get_paginate_by]: [COOKIES.get('paginate_by', 5)]. *)
Definition get_paginate_by (req : Request) : PyVal :=
  match COOKIES req !! "paginate_by" with
  | Some v => PyStr v
  | None => PyInt 5
  end.

(** *** The list views *)

(** The ORM's part of a search:
    [filter(Q(title__icontains=s) | Q(description__icontains=s)).order_by(o)]
    over the rows of the table, or [None] when the ORM refuses the field
    named by [o]. *)
Variable Course_search : string → string → list Course → option (list Course).

(** [MainView.get_queryset].  Storing a queryset in the cache pickles it,
    and pickling evaluates it: on a miss the class attribute is given its
    rows, unless it has them already, and these rows are what is stored
    and served.  On a hit the stored rows are served.  A search builds a
    new queryset from the one at hand, which reads the table.  The result
    is [None] when the ORM raises; an entry under ['courses'] that does
    not hold courses, which no view stores, counts as such. *)
Definition MainView_get_queryset (req : Request)
  : M Process (option (list Course)) :=
  cached ← gets (λ p, cache (world p) !! "courses");
  queryset ←
    match cached with
    | Some (CachedCourses rows) => mret (Some rows)
    | Some (CachedLessons _) => mret None
    | None =>
        held ← gets MainView_queryset;
        rows ← match held with
               | Some rows => mret rows
               | None =>
                   rows ← gets (λ p, courses (db (world p)));
                   modify (λ p, mkProcess (world p) (Some rows));;
                   mret rows
               end;
        on_world (modify (λ w,
          set_cache (<["courses" := CachedCourses rows]> (cache w)) w));;
        mret (Some rows)
    end;
  if bool_decide (dom (GET req) ≠ ({["search"; "price_order"]} : gset string))
  then mret queryset
  else
    match queryset, GET req !! "search", GET req !! "price_order" with
    | Some _, Some search_query, Some price_order_by =>
        gets (λ p, Course_search search_query price_order_by
                     (courses (db (world p))))
    | _, _, _ => mret None
    end.

(** [FavouriteView.get_queryset]: [filter(id__in=ids)] on what the list
    view returns is a new queryset again, read from the table.  A
    ['favourites'] entry that is not a list, which no view stores, gives
    [None]. *)
Definition FavouriteView_get_queryset (req : Request) (session : Session)
  : M Process (option (list Course)) :=
  queryset ← MainView_get_queryset req;
  let ids :=
    match session_data session !! "favourites" with
    | None => Some []
    | Some (SList l) => Some l
    | Some (SStr _) => None
    end in
  match queryset, ids with
  | Some _, Some ids =>
      let id__in := filter (λ c, course_pk c ∈ ids) in
      if bool_decide (dom (GET req) ≠ ({["search"; "price_order"]} : gset string))
      then gets (λ p, Some (id__in (courses (db (world p)))))
      else
        match GET req !! "search", GET req !! "price_order" with
        | Some search_query, Some price_order_by =>
            gets (λ p, id__in <$> Course_search search_query price_order_by
                                    (courses (db (world p))))
        | _, _ => mret None
        end
  | _, _ => mret None
  end.

(** [CourseDetailView.get_queryset]: the lessons of the course, through
    the cache, kept for 30 seconds. *)
Definition CourseDetailView_get_queryset (course_id : Z) : M Timed CacheVal :=
  cache_get_or_set (lessons_key course_id)
    (λ d, CachedLessons (Lesson_filter d course_id))
    30.

(** [TrackingView.get_queryset]: the rows of the user, each joined to its
    lesson and to the course of the lesson, whose title is the [header]. *)
Definition TrackingView_get_queryset (request_user : User) (d : DB)
  : list (Tracking * string) :=
  t ← filter (λ t, tr_user t = user_pk request_user) (trackings d);
  l ← filter (λ l, lesson_pk l = tr_lesson t) (lessons d);
  c ← filter (λ c, course_pk c = lesson_course l) (courses d);
  [(t, title c)].

End Views.
End Learning.

(** ** auth_app/signals.py and auth_app/views.py *)
Module AuthApp.
Import Framework.

(** *** signals.py *)

(** [Group.objects.filter(name=name)]. *)
Definition Group_filter (d : DB) (name : string) : list Group :=
  filter (λ g, group_name g = name) (groups d).

(** [instance.groups.set(objs)]: the groups held and not in [objs] are
    removed, those of [objs] not held yet are added. *)
Definition groups_set (uid : Z) (objs : list Group) (d : DB) : DB :=
  let old_ids := group_pks_of d uid in
  let new_ids := remove_dups (group_pk <$> objs) in
  let removed := filter (λ g, g ∉ new_ids) old_ids in
  let added := filter (λ g, g ∉ old_ids) new_ids in
  set_user_groups
    (λ l, filter (λ ug, ¬ (ug.1 = uid ∧ ug.2 ∈ removed)) l
          ++ ((λ g, (uid, g)) <$> added))
    d.

(** The receiver of [post_save] for the user model. *)
Definition grant_pupil_rights (instance : User) (created : bool) (d : DB) : DB :=
  if created then
    let pupil := Group_filter d "Ученик" in
    groups_set (user_pk instance) pupil d
  else d.

(** *** views.py *)

Record EmailMessage := mkEmail {
  subject : string;
  body : string;
  to : list string;
  content_subtype : string
}.

(** What a login request works on: its session and the messages handed
    to the mail backend. *)
Record LoginState := mkLoginState {
  session : Session;
  outbox : list EmailMessage
}.

Definition on_session (f : Session → Session) : M LoginState unit :=
  modify (λ st, mkLoginState (f (session st)) (outbox st)).

Section UserLoginView.

(** [settings.REMEMBER_KEY] and [settings.REMEMBER_AGE] (seconds). *)
Variable REMEMBER_KEY : string.
Variable REMEMBER_AGE : Z.
(** The template engine: [render_to_string(template_name, context)],
    the context being the message. *)
Variable render_to_string : string → string → string.
(** [LoginView.form_valid], the method of the parent class that logs
    the user in and redirects. *)
Variable LoginView_form_valid : Request → M LoginState Response.
(** [datetime.now().isoformat()] and [timezone.now().isoformat()] at the
    time of the request. *)
Variable datetime_now : string.
Variable timezone_now : string.

Definition newline : string := String (Ascii.ascii_of_nat 10) EmptyString.

(** The receiver connected to [account_access].  The message is sent
    with [fail_silently=True]. *)
Definition send_login_user_email (req : Request) : M LoginState unit :=
  match POST req !! "username" with
  | None => raise KeyError
  | Some username =>
      let message :=
        "В ваш аккаунт " +:+ username +:+ " был выполнен вход "
        +:+ timezone_now +:+ newline
        +:+ "Если Вы не совершали вход, то рекомендуем немедленно " in
      let email :=
        mkEmail "Вход в аккаунт | Платформа Codeby"
                (render_to_string "registration/account_access_email.html" message)
                [username] "html" in
      modify (λ st, mkLoginState (session st) (outbox st ++ [email]))
  end.

Definition UserLoginView_form_valid (req : Request) : M LoginState Response :=
  let is_remember := POST req !! "is_remember" in
  (if bool_decide (is_remember = Some "on") then
     on_session (session_setitem REMEMBER_KEY (SStr datetime_now));;
     on_session (session_set_expiry REMEMBER_AGE)
   else if bool_decide (is_remember = Some "off") then
     on_session (session_set_expiry 0)
   else mret tt);;
  send_login_user_email req;;
  LoginView_form_valid req.

End UserLoginView.
End AuthApp.

(** ** A small site, for running the views *)
Module Sample.
Import Framework.

Definition pupil : Group := mkGroup 1 "Ученик" ["learning.add_tracking"].
Definition author : Group :=
  mkGroup 2 "Автор"
    ["learning.add_course"; "learning.change_course"; "learning.delete_course"].

(** alice wrote course 1; bob is a pupil; carol is in the authors' group
    but wrote nothing; dave was a pupil once and is in no group now. *)
Definition alice : User := mkUser 1 "alice@example.com" true false [].
Definition bob : User := mkUser 2 "bob@example.com" true false [].
Definition carol : User := mkUser 3 "carol@example.com" true false [].
Definition dave : User := mkUser 4 "dave@example.com" true false [].

Definition course1 : Course := mkCourse 1 "Logic" "First steps" "2024-09-01".

Definition db0 : DB :=
  mkDB [pupil; author]
       [(1, 2); (2, 1); (3, 2)]
       [course1]
       [(1, 1)]
       [mkLesson 1 1 "Propositions" ""; mkLesson 2 1 "Proofs" "";
        mkLesson 3 2 "Sets" ""]
       [mkTracking 1 4 true; mkTracking 2 4 false].

Definition w0 : World :=
  mkWorld db0 {["courses" := CachedCourses [course1]]} [] [].

Definition request (m : string) (u : option User)
    (post : gmap string string) : Request :=
  mkRequest m u ∅ post ∅.

(** A [CourseForm] that asks for the three fields. *)
Definition course_form (post : gmap string string) : option Learning.CourseData :=
  t ← post !! "title";
  d ← post !! "description";
  s ← post !! "start_date";
  Some (Learning.mkCourseData t d s).

(** Deletion with every foreign key cascading. *)
Definition cascade_delete (pk : Z) (d : DB) : DB :=
  let gone := lesson_pk <$> filter (λ l, lesson_course l = pk) (lessons d) in
  mkDB (groups d) (user_groups d)
       (filter (λ c, course_pk c ≠ pk) (courses d))
       (filter (λ cu, cu.1 ≠ pk) (course_authors d))
       (filter (λ l, lesson_course l ≠ pk) (lessons d))
       (filter (λ t, tr_lesson t ∉ gone) (trackings d)).

Definition course_post : gmap string string :=
  <["title" := "Logic II"]>
    (<["description" := "Next steps"]> (<["start_date" := "2025-02-01"]> ∅)).

(** A login of the parent class that keeps the session and redirects. *)
Definition login_parent (req : Request) : M AuthApp.LoginState Response :=
  mret (HttpResponseRedirect (reverse "index" [])).

Definition login_post (remember : string) : gmap string string :=
  <["username" := "bob@example.com"]> (<["is_remember" := remember]> ∅).

Definition login_state0 : AuthApp.LoginState :=
  AuthApp.mkLoginState (mkSession ∅ None false) [].

Definition login_run (remember : string)
  : Outcome AuthApp.LoginState Response :=
  AuthApp.UserLoginView_form_valid "remember" 1209600 (λ _ message, message) login_parent
    "2024-09-01T10:00:00" "2024-09-01T07:00:00+00:00"
    (request "POST" None (login_post remember)) login_state0.

(** The site once dave has passed both lessons of course 1. *)
Definition w_passed : World :=
  mkWorld (set_trackings (λ _, [mkTracking 1 4 true; mkTracking 2 4 true]) db0)
          ∅ [] [].

(** A search that keeps every row, in the order of the table. *)
Definition course_search (search_query price_order_by : string)
    (rows : list Course) : option (list Course) :=
  Some rows.

(** The user the receiver of [post_save] is run for. *)
Definition eve : User := mkUser 5 "eve@example.com" true false [].

End Sample.

(** * Properties *)

Ltac run_view :=
  unfold mbind, Framework.M_bind, Framework.bind, mret, Framework.M_ret,
    Framework.ret, Framework.gets, Framework.modify, Framework.raise in *.

Module LearningSpec.
Import Framework Learning.

Section Certificate.
Variable receiver_raises : SignalEvent → bool.

Lemma passed_sum_bounds (rows : list Tracking) :
  0 ≤ foldr (λ t acc, (if passed t then 1 else 0) + acc) 0 rows
    ≤ Z.of_nat (length rows).
Proof.
  induction rows as [|t rows IH]; simpl; [lia|].
  destruct (passed t); lia.
Qed.

Lemma passed_sum_full (rows : list Tracking) :
  foldr (λ t acc, (if passed t then 1 else 0) + acc) 0 rows
    = Z.of_nat (length rows)
  ↔ Forall (λ t, passed t = true) rows.
Proof.
  induction rows as [|t rows IH]; simpl.
  - split; [constructor | done].
  - pose proof (passed_sum_bounds rows) as Hb.
    rewrite Forall_cons. destruct (passed t) eqn:Hp.
    + rewrite <- IH. split; [intros; split; [done | lia] | intros [_ ?]; lia].
    + split; [lia | intros [? _]; done].
Qed.

(** The comparison of the two aggregates: they are equal exactly when
    there is a row and every row is passed. *)
Lemma aggregates_equal (rows : list Tracking) :
  Some (Count rows) = Sum rows
  ↔ rows ≠ [] ∧ Forall (λ t, passed t = true) rows.
Proof.
  rewrite <- passed_sum_full. unfold Count, Sum.
  destruct rows as [|t rows].
  - split; [done | intros [? _]; done].
  - split.
    + intros H. injection H as H. split; [done | exact (eq_sym H)].
    + intros [_ H]. f_equal. exact (eq_sym H).
Qed.

(** C1. The certificate endpoint, asked by a logged-in user: when it
    answers that the certificate was sent, or when it sends the
    certificate signal at all, every tracking row of the user for the
    lessons of the course is passed (and there is one); when one of
    these rows is not passed, it answers that the course is not
    completed, sends no signal and changes nothing. *)
Theorem get_certificate_view_gate (req : Request) (course_id : Z)
    (u : User) (w : World) :
  user req = Some u →
  let rows := Tracking_filter (db w) course_id (user_pk u) in
  let out := get_certificate_view receiver_raises req course_id w in
  (∀ w', out = Ok (HttpResponse certificate_sent) w' →
     Forall (λ t, passed t = true) rows ∧ rows ≠ [] ∧
     signals w' = signals w ++ [get_certificate (user_pk u)])
  ∧ (signals (final_state out) ≠ signals w →
     Forall (λ t, passed t = true) rows)
  ∧ (Exists (λ t, passed t = false) rows →
     out = Ok (HttpResponse course_not_completed) w).
Proof.
  intros Hu rows out. subst out.
  unfold get_certificate_view, login_required, Signal_send. rewrite Hu.
  run_view. fold rows.
  case_bool_decide as Heq.
  - apply aggregates_equal in Heq as [Hne Hall].
    split; [|split].
    + intros w' Hout. destruct (receiver_raises _); [done|].
      injection Hout as <-. done.
    + done.
    + intros Hex. apply Exists_exists in Hex as (t & Hin & Hf).
      rewrite Forall_forall in Hall. specialize (Hall t Hin). congruence.
  - split; [|split].
    + intros w' [=].
    + simpl. done.
    + done.
Qed.

End Certificate.

Section Enroll.
Variable receiver_raises : SignalEvent → bool.

Lemma set_db_same (w : World) : set_db (db w) w = w.
Proof. by destruct w. Qed.

Local Abbreviation new_records u ls :=
  ((λ lesson, mkTracking (lesson_pk lesson) (user_pk u) false) <$> ls).

(** The body of [enroll] once the two decorators have let the request
    through and no row was found. *)
Local Abbreviation enroll_body u course_id :=
  (lessons ← gets (λ w, Lesson_filter (db w) course_id);
   bulk_create (new_records u lessons);;
   Signal_send receiver_raises (course_enroll (user_pk u) course_id);;
   mret (redirect (reverse "tracking" []))).

Lemma enroll_cases (req : Request) (course_id : Z) (u : User) (w : World) :
  user req = Some u →
  enroll receiver_raises req course_id w =
    if has_perm (db w) u "learning.add_tracking" then
      if bool_decide (Tracking_filter (db w) course_id (user_pk u) ≠ [])
      then Ok (HttpResponse already_enrolled) w
      else atomic (enroll_body u course_id) w
    else Raise PermissionDenied w.
Proof.
  intros Hu. unfold enroll, atomic, login_required, permission_required.
  rewrite Hu. run_view.
  destruct (has_perm _ _ _); [|by rewrite set_db_same].
  case_bool_decide; [done|].
  done.
Qed.

(** What the body does to the tables: either it raises and leaves them as
    they were, or it appends one row per lesson of the course. *)
Lemma enroll_body_outcome (u : User) (course_id : Z) (w : World) :
  match atomic (enroll_body u course_id) w with
  | Ok r w' =>
      r = redirect (reverse "tracking" []) ∧
      db w' = set_trackings
                (λ l, l ++ new_records u (Lesson_filter (db w) course_id))
                (db w) ∧
      signals w' = signals w ++ [course_enroll (user_pk u) course_id]
  | Raise e w' => db w' = db w
  end.
Proof.
  unfold atomic, bulk_create, Signal_send, db_write. run_view.
  destruct (new_records u _) eqn:Hrec.
  - destruct (receiver_raises _); simpl; [done|].
    split; [done|]. split; [|done].
    destruct w as [[] ? ? ?]; simpl. unfold set_trackings; simpl.
    by rewrite app_nil_r.
  - destruct (faults w) as [|[] fs]; simpl; [| done |];
      destruct (receiver_raises _); simpl; done.
Qed.


(** Among the new rows, those of one lesson of the table: exactly one
    when the lesson belongs to the course, keys being unique. *)
Lemma new_records_of_lesson (u : User) (course_id : Z) (L : list Lesson)
    (l : Lesson) :
  NoDup (lesson_pk <$> L) →
  l ∈ L →
  lesson_course l = course_id →
  filter (λ t, tr_user t = user_pk u ∧ tr_lesson t = lesson_pk l)
         (new_records u (filter (λ l', lesson_course l' = course_id) L))
  = [mkTracking (lesson_pk l) (user_pk u) false].
Proof.
  intros Hnd Hin Hc.
  assert (Hout : ∀ L', lesson_pk l ∉ lesson_pk <$> L' →
    filter (λ t, tr_user t = user_pk u ∧ tr_lesson t = lesson_pk l)
           (new_records u (filter (λ l', lesson_course l' = course_id) L'))
    = []).
  { induction L' as [|l0 L' IH]; [done|]. rewrite fmap_cons, not_elem_of_cons.
    intros [Hne Hnin]. rewrite filter_cons. case_decide; [|by apply IH].
    rewrite fmap_cons, filter_cons. simpl. case_decide as Hd.
    - destruct Hd as [_ Hd]. congruence.
    - by apply IH. }
  induction L as [|l0 L IH]; [by apply elem_of_nil in Hin|].
  rewrite fmap_cons in Hnd. apply NoDup_cons in Hnd as [Hfresh Hnd].
  apply elem_of_cons in Hin as [->|Hin].
  - rewrite filter_cons. rewrite decide_True by done.
    rewrite fmap_cons, filter_cons. simpl. rewrite decide_True by done.
    by rewrite Hout.
  - assert (lesson_pk l0 ≠ lesson_pk l) as Hne.
    { intros Heq. apply Hfresh. rewrite Heq. by apply list_elem_of_fmap_2. }
    rewrite filter_cons. case_decide; [|by apply IH].
    rewrite fmap_cons, filter_cons. simpl. case_decide as Hd.
    + destruct Hd as [_ Hd]. done.
    + by apply IH.
Qed.

(** Before a first enrolment the user has no row for a lesson of the
    course. *)
Lemma no_rows_before (d : DB) (course_id : Z) (u : User) (l : Lesson) :
  Tracking_filter d course_id (user_pk u) = [] →
  l ∈ lessons d →
  lesson_course l = course_id →
  filter (λ t, tr_user t = user_pk u ∧ tr_lesson t = lesson_pk l)
         (trackings d) = [].
Proof.
  intros Hnone Hin Hc.
  destruct (filter _ (trackings d)) as [|t rest] eqn:Hf; [done|].
  assert (t ∈ filter (λ t, tr_user t = user_pk u ∧ tr_lesson t = lesson_pk l)
                     (trackings d)) as Ht by (rewrite Hf; left).
  apply list_elem_of_filter in Ht as [[Hu Hl] Ht].
  assert (t ∈ Tracking_filter d course_id (user_pk u)) as Hmem.
  { unfold Tracking_filter. apply list_elem_of_filter. split; [|done].
    split; [done|]. apply Exists_exists. exists l. by rewrite Hl. }
  rewrite Hnone in Hmem. by apply elem_of_nil in Hmem.
Qed.

(** C2. Enrolment runs in one transaction.  With unique lesson keys and
    a logged-in user: when the user holds [learning.add_tracking] and has
    no row for the course yet, the INSERT is let through and the receivers
    of [course_enroll] do not raise, [enroll] redirects to the tracking
    page.  And [enroll] ends in one of three ways: the user was enrolled
    already and nothing changed; or it redirects to the tracking page, and
    then the tracking table is the old one followed by one row per lesson
    of the course, in one INSERT, each for this user with
    [passed = False], so that every lesson of the course has exactly one
    row of the user, and no other table changed; or it raises, and then
    the tables are what they were. *)
Theorem enroll_one_row_per_lesson (req : Request) (course_id : Z)
    (u : User) (w : World) :
  NoDup (lesson_pk <$> lessons (db w)) →
  user req = Some u →
  (has_perm (db w) u "learning.add_tracking" = true →
   Tracking_filter (db w) course_id (user_pk u) = [] →
   head (faults w) ≠ Some true →
   receiver_raises (course_enroll (user_pk u) course_id) = false →
   ∃ w', enroll receiver_raises req course_id w
         = Ok (redirect (reverse "tracking" [])) w')
  ∧ match enroll receiver_raises req course_id w with
    | Ok r w' =>
        (r = HttpResponse already_enrolled ∧ w' = w)
        ∨ (r = redirect (reverse "tracking" []) ∧
           db w' = set_trackings
                     (λ l, l ++ new_records u (Lesson_filter (db w) course_id))
                     (db w) ∧
           ∀ l, l ∈ lessons (db w') → lesson_course l = course_id →
                filter (λ t, tr_user t = user_pk u ∧ tr_lesson t = lesson_pk l)
                       (trackings (db w'))
                = [mkTracking (lesson_pk l) (user_pk u) false])
    | Raise e w' => db w' = db w
    end.
Proof.
  intros Hnd Hu. rewrite (enroll_cases _ _ u) by done. split.
  - intros -> -> Hfault Hrecv. simpl.
    unfold atomic, bulk_create, Signal_send, db_write. run_view.
    destruct (new_records u _); simpl.
    + rewrite Hrecv. by eexists.
    + destruct (faults w) as [|[] fs]; simpl; [| by destruct Hfault |];
        rewrite Hrecv; by eexists.
  - destruct (has_perm _ _ _); [|done].
    case_bool_decide as Hrows; [by left|].
    assert (Tracking_filter (db w) course_id (user_pk u) = []) as Hnone.
    { destruct (Tracking_filter _ _ _); [done | by destruct Hrows]. }
    pose proof (enroll_body_outcome u course_id w) as Hbody.
    destruct (atomic _ w) as [r w'|e w']; [|done].
    destruct Hbody as (-> & Hdb & _). right. split; [done|]. split; [done|].
    rewrite Hdb. simpl. intros l Hin Hc.
    rewrite filter_app, (no_rows_before _ course_id) by done.
    by apply new_records_of_lesson.
Qed.

(** C3 (as amended). A user is not tracked twice: when a logged-in user
    already has a row for some lesson of the course, [enroll] changes
    nothing at all; it answers that the user is enrolled already when
    the user holds [learning.add_tracking], and raises
    [PermissionDenied] when the user does not. *)
Theorem enroll_again_changes_nothing (req : Request) (course_id : Z)
    (u : User) (w : World) :
  user req = Some u →
  Tracking_filter (db w) course_id (user_pk u) ≠ [] →
  let out := enroll receiver_raises req course_id w in
  final_state out = w
  ∧ (has_perm (db w) u "learning.add_tracking" = true →
     out = Ok (HttpResponse already_enrolled) w)
  ∧ (has_perm (db w) u "learning.add_tracking" = false →
     out = Raise PermissionDenied w).
Proof.
  intros Hu Hrows. simpl. rewrite (enroll_cases _ _ u) by done.
  rewrite bool_decide_eq_true_2 by done.
  destruct (has_perm _ _ _); by repeat split.
Qed.

End Enroll.

Section Courses.
Variable CourseForm : gmap string string → option CourseData.
Variable Course_delete : Z → DB → DB.

Lemma fresh_pk_above (pks : list Z) (pk : Z) : pk ∈ pks → pk < fresh_pk pks.
Proof.
  unfold fresh_pk. induction pks as [|p pks IH]; [by intros ?%elem_of_nil|].
  intros [->|Hin]%elem_of_cons; simpl; [lia|]. specialize (IH Hin). lia.
Qed.

Lemma fresh_pk_fresh (pks : list Z) : fresh_pk pks ∉ pks.
Proof. intros Hin%fresh_pk_above. lia. Qed.

(** The guards the three course views share: a request that does not
    pass them changes nothing. *)
Lemma guards_refuse (perm : string) (req : Request)
    (dispatch : User → M World Response) (w : World) :
  match user req with
  | Some u => has_perm (db w) u perm = false
  | None => True
  end →
  final_state (LoginRequired_PermissionRequired perm req dispatch w) = w.
Proof.
  unfold LoginRequired_PermissionRequired, handle_no_permission. run_view.
  destruct (user req) as [u|]; [|done]. by intros ->.
Qed.

(** C4 (as amended). Editing a course is for those who hold
    [learning.change_course]: a request that is anonymous, or whose user
    lacks that permission, has the update view change nothing. *)
Theorem course_update_needs_permission (req : Request) (course_id : Z)
    (w : World) :
  match user req with
  | Some u => has_perm (db w) u "learning.change_course" = false
  | None => True
  end →
  final_state (CourseUpdateView CourseForm req course_id w) = w.
Proof. apply guards_refuse. Qed.

(** The update view never writes to the cache. *)
Lemma course_update_keeps_cache (req : Request) (course_id : Z) (w : World) :
  cache (final_state (CourseUpdateView CourseForm req course_id w)) = cache w.
Proof.
  unfold CourseUpdateView, LoginRequired_PermissionRequired,
    handle_no_permission, View_dispatch, get_object, Course_update, db_write.
  run_view.
  repeat (case_match; simplify_eq/=; try done).
Qed.

(** What [form_valid] of the creation view does, in one transaction:
    either it raises and the tables are rolled back, or the course row
    and the author pair are both there and the cached list is gone. *)
Lemma course_create_form_valid_outcome (u : User) (form : CourseData)
    (w : World) :
  let pk := fresh_pk (course_pk <$> courses (db w)) in
  match CourseCreateView_form_valid u form w with
  | Ok r w' =>
      r = redirect (reverse "create_lesson" [("course_id", pk)]) ∧
      courses (db w') =
        courses (db w) ++ [mkCourse pk (data_title form)
                             (data_description form) (data_start_date form)] ∧
      (pk, user_pk u) ∈ course_authors (db w') ∧
      cache w' !! "courses" = None
  | Raise e w' => db w' = db w
  end.
Proof.
  intros pk. subst pk.
  unfold CourseCreateView_form_valid, atomic, Course_insert, authors_add,
    cache_delete, db_write.
  run_view. destruct w as [d c sg fl]. simpl.
  assert (∀ l : list (Z * Z),
            (fresh_pk (course_pk <$> courses d), user_pk u)
            ∈ l ++ [(fresh_pk (course_pk <$> courses d), user_pk u)])
    as Hlast by set_solver.
  destruct fl as [|[] fs]; simpl; [| done |].
  - case_bool_decide as Hin; simpl;
      (split; [done|]; split; [done|]; split;
       [done || apply Hlast | apply lookup_delete_eq]).
  - case_bool_decide as Hin; simpl.
    + split; [done|]. split; [done|]. split; [done|]. apply lookup_delete_eq.
    + destruct fs as [|[] fs']; simpl; [| done |];
        (split; [done|]; split; [done|];
         split; [apply Hlast | apply lookup_delete_eq]).
Qed.

(** What [form_valid] of the creation view needs to go through: the two
    writes let through. *)
Lemma course_create_form_valid_goes_through (u : User) (form : CourseData)
    (w : World) :
  true ∉ take 2 (faults w) →
  ∃ w', CourseCreateView_form_valid u form w
        = Ok (redirect (reverse "create_lesson"
                [("course_id", fresh_pk (course_pk <$> courses (db w)))])) w'.
Proof.
  intros Hfaults.
  unfold CourseCreateView_form_valid, atomic, Course_insert, authors_add,
    cache_delete, db_write.
  run_view. destruct w as [d c sg fl]. simpl in *.
  destruct fl as [|[] [|[] fs]]; simpl in *;
    try (destruct Hfaults; set_solver);
    case_bool_decide; simpl; by eexists.
Qed.

(** C10. A request to the creation view by a logged-in user who holds
    [learning.add_course], posting a valid form, with the two writes let
    through, is a creation that goes through: it redirects to the lesson
    form of the new course.  And the view ends in one of three ways.  It
    answers without creating anything and changes nothing; or it
    redirects to the lesson form of the new course, and then the course
    row, under a key no course had, and the pair of that key with the
    requesting user in the authors relation are both in the tables; or
    it raises, and then the tables are rolled back: the row and the pair
    are written together or not at all. *)
Theorem course_create_author_atomic (req : Request) (w : World) :
  (∀ u form,
     user req = Some u →
     has_perm (db w) u "learning.add_course" = true →
     method req = "POST" →
     CourseForm (POST req) = Some form →
     true ∉ take 2 (faults w) →
     ∃ w', CourseCreateView CourseForm req w
           = Ok (redirect (reverse "create_lesson"
                   [("course_id", fresh_pk (course_pk <$> courses (db w)))])) w')
  ∧ match CourseCreateView CourseForm req w with
    | Ok r w' =>
        (w' = w ∧
         ∀ pk, r ≠ redirect (reverse "create_lesson" [("course_id", pk)]))
        ∨ (∃ u form pk,
             user req = Some u ∧ CourseForm (POST req) = Some form ∧
             (pk ∉ course_pk <$> courses (db w)) ∧
             r = redirect (reverse "create_lesson" [("course_id", pk)]) ∧
             courses (db w') =
               courses (db w) ++ [mkCourse pk (data_title form)
                                    (data_description form)
                                    (data_start_date form)] ∧
             (pk, user_pk u) ∈ course_authors (db w'))
    | Raise e w' => db w' = db w
    end.
Proof.
  unfold CourseCreateView, LoginRequired_PermissionRequired,
    handle_no_permission, View_dispatch.
  run_view. split.
  - intros u form -> -> -> -> Hfaults. simpl.
    by apply course_create_form_valid_goes_through.
  - destruct (user req) as [u|] eqn:Hu; [|by left].
    destruct (has_perm _ _ _); [|done].
    destruct (_ || _).
    + destruct (CourseForm (POST req)) as [form|] eqn:Hform; [|by left].
      pose proof (course_create_form_valid_outcome u form w) as Hfv.
      destruct (CourseCreateView_form_valid u form w) as [r w'|e w']; [|done].
      destruct Hfv as (-> & Hrow & Hpair & _). right.
      exists u, form, (fresh_pk (course_pk <$> courses (db w))).
      repeat split; try done. apply fresh_pk_fresh.
    + destruct (_ || _); [by left|]. destruct (bool_decide _); by left.
Qed.

(** After a creation that went through, the cached list is gone. *)
Lemma course_create_invalidates (req : Request) (w w' : World) (pk : Z) :
  CourseCreateView CourseForm req w
  = Ok (redirect (reverse "create_lesson" [("course_id", pk)])) w' →
  cache w' !! "courses" = None.
Proof.
  unfold CourseCreateView, LoginRequired_PermissionRequired,
    handle_no_permission, View_dispatch.
  run_view.
  destruct (user req) as [u|]; [|done].
  destruct (has_perm _ _ _); [|done].
  destruct (_ || _).
  - destruct (CourseForm (POST req)) as [form|]; [|done].
    pose proof (course_create_form_valid_outcome u form w) as Hfv.
    intros Hout. rewrite Hout in Hfv. by destruct Hfv as (_ & _ & _ & ?).
  - destruct (_ || _); [done|]. destruct (bool_decide _); done.
Qed.

(** After a deletion by POST that went through, the cached list and the
    cached lessons of the course are gone. *)
Lemma course_delete_invalidates (req : Request) (course_id : Z)
    (w w' : World) :
  method req = "POST" →
  CourseDeleteView Course_delete req course_id w
  = Ok (HttpResponseRedirect (reverse "index" [])) w' →
  cache w' !! "courses" = None ∧ cache w' !! lessons_key course_id = None.
Proof.
  intros Hm.
  unfold CourseDeleteView, LoginRequired_PermissionRequired,
    handle_no_permission, DeleteView_dispatch, get_object,
    CourseDeleteView_form_valid, cache_delete_many, db_write.
  rewrite Hm. run_view.
  assert (∀ c : gmap string CacheVal,
    foldr delete c ["courses"; lessons_key course_id] !! "courses" = None ∧
    foldr delete c ["courses"; lessons_key course_id]
      !! lessons_key course_id = None) as Hgone.
  { intros c. simpl. split; [apply lookup_delete_eq|].
    rewrite lookup_delete_ne by done. apply lookup_delete_eq. }
  intros Hout.
  repeat (case_match; simplify_eq/=; try done).
Qed.

End Courses.

Section Favourites.

(** [list_remove] takes out the first occurrence, and fails exactly
    when there is none. *)
Lemma list_remove_Some (x : Z) (l l' : list Z) :
  list_remove x l = Some l' ↔
  ∃ l1 l2, l = l1 ++ x :: l2 ∧ (x ∉ l1) ∧ l' = l1 ++ l2.
Proof.
  revert l'. induction l as [|y l IH]; intros l'; simpl.
  - split; [done|]. intros (l1 & l2 & Hl & _). by destruct l1.
  - case_bool_decide as Hy.
    + subst y. split.
      * intros [= <-]. exists [], l. split; [done|]. split; [|done].
        apply not_elem_of_nil.
      * intros (l1 & l2 & Hl & Hnin & ->). destruct l1 as [|z l1].
        -- by injection Hl as ->.
        -- injection Hl as <- _. destruct Hnin. left.
    + split.
      * intros Hr. destruct (list_remove x l) as [l0|] eqn:Hrem; [|done].
        injection Hr as <-.
        destruct (proj1 (IH l0) eq_refl) as (l1 & l2 & -> & Hnin & ->).
        exists (y :: l1), l2. split; [done|]. split; [|done].
        apply not_elem_of_cons. by split.
      * intros (l1 & l2 & Hl & Hnin & ->). destruct l1 as [|z l1].
        -- injection Hl as -> _. done.
        -- injection Hl as <- ->. apply not_elem_of_cons in Hnin as [_ Hnin].
           rewrite (proj2 (IH (l1 ++ l2))); [done|]. by exists l1, l2.
Qed.

Lemma list_remove_None (x : Z) (l : list Z) :
  list_remove x l = None ↔ x ∉ l.
Proof.
  induction l as [|y l IH]; simpl.
  - split; [intros _; apply not_elem_of_nil | done].
  - rewrite not_elem_of_cons. case_bool_decide as Hy.
    + split; [done | intros [? _]; done].
    + destruct (list_remove x l); simpl.
      * split; [done|]. intros [_ Hnin]. by apply IH in Hnin.
      * split; [|done]. intros _. split; [done | by apply IH].
Qed.

(** C9. Removing a favourite, on a POST request.  Without a
    ['favourites'] entry in the session the view raises
    [AttributeError]; with a list that does not hold the course it
    raises [ValueError]; in both cases the session is left as it was.
    It returns only when the list holds the course, and then it
    redirects to the index, the list has lost the first occurrence of
    the course and the session is marked as modified. *)
Theorem remove_booking_partial (req : Request) (course_id : Z) (s : Session) :
  method req = "POST" →
  let out := remove_booking req course_id s in
  (session_data s !! "favourites" = None → out = Raise AttributeError s)
  ∧ (∀ l, session_data s !! "favourites" = Some (SList l) →
          course_id ∉ l → out = Raise ValueError s)
  ∧ (∀ r s', out = Ok r s' →
       ∃ l1 l2,
         session_data s !! "favourites" = Some (SList (l1 ++ course_id :: l2)) ∧
         (course_id ∉ l1) ∧
         r = redirect (reverse "index" []) ∧
         session_data s' = <["favourites" := SList (l1 ++ l2)]> (session_data s) ∧
         modified s' = true).
Proof.
  intros Hm. simpl. unfold remove_booking. rewrite bool_decide_eq_true_2 by done.
  run_view.
  destruct (session_data s !! "favourites") as [[str|l]|] eqn:Hfav.
  - repeat split; done.
  - destruct (list_remove course_id l) as [l'|] eqn:Hrem.
    + apply list_remove_Some in Hrem as (l1 & l2 & -> & Hnin & ->).
      split; [done|]. split.
      * intros l [= <-] Hnot. destruct Hnot. set_solver.
      * intros r s' [= <- <-]. exists l1, l2. repeat split; done.
    + apply list_remove_None in Hrem. repeat split; done.
  - repeat split; done.
Qed.

(** C8. The pagination preference.  A POST to the settings view that
    submits [paginate_by = v] answers with the cookie ['paginate_by']
    set to [v] for a year; a browser that keeps the cookies of that
    answer has the list view paginate by [v]; and in general the list
    view paginates by the cookie it is sent, and by 5 when it is sent
    none. *)
Theorem paginate_by_cookie (req next : Request) (jar : gmap string string)
    (v : string) :
  POST req !! "paginate_by" = Some v →
  COOKIES next = browser_store (SettingFormView_post req) jar →
  cookies (SettingFormView_post req) !! "paginate_by"
    = Some (mkCookie v (Some 31536000) false false "Lax")
  ∧ get_paginate_by next = PyStr v
  ∧ (∀ other : Request,
       get_paginate_by other
       = match COOKIES other !! "paginate_by" with
         | Some c => PyStr c
         | None => PyInt 5
         end)
  ∧ (∀ other : Request,
       COOKIES other !! "paginate_by" = None → get_paginate_by other = PyInt 5).
Proof.
  intros Hv Hjar.
  assert (cookies (SettingFormView_post req) !! "paginate_by"
          = Some (mkCookie v (Some 31536000) false false "Lax")) as Hset.
  { unfold SettingFormView_post, set_cookie. simpl. rewrite Hv.
    apply lookup_insert_eq. }
  split; [done|]. split.
  - unfold get_paginate_by, browser_store in *. rewrite Hjar.
    erewrite lookup_union_Some_l; [done|].
    by rewrite lookup_fmap, Hset.
  - split; [done|]. intros other Hnone. unfold get_paginate_by. by rewrite Hnone.
Qed.

End Favourites.

Section Runs.
Import Sample.

Lemma get_certificate_view_gate_witness :
  get_certificate_view (λ _, false) (request "GET" (Some dave) ∅) 1 w0
  = Ok (HttpResponse course_not_completed) w0.
Proof.
  apply (get_certificate_view_gate (λ _, false)
           (request "GET" (Some dave) ∅) 1 dave w0 eq_refl).
  apply Exists_cons_tl, Exists_cons_hd. reflexivity.
Defined.

Lemma enroll_one_row_per_lesson_witness :
  ∃ w', enroll (λ _, false) (request "POST" (Some bob) ∅) 1 w0
        = Ok (redirect (reverse "tracking" [])) w'
        ∧ trackings (db w')
          = [mkTracking 1 4 true; mkTracking 2 4 false;
             mkTracking 1 2 false; mkTracking 2 2 false]
        ∧ filter (λ t, tr_user t = 2 ∧ tr_lesson t = 1) (trackings (db w'))
          = [mkTracking 1 2 false].
Proof.
  assert (NoDup (lesson_pk <$> lessons (db w0))) as Hnd
    by (apply (bool_decide_unpack _); reflexivity).
  destruct (enroll_one_row_per_lesson (λ _, false)
              (request "POST" (Some bob) ∅) 1 bob w0 Hnd eq_refl)
    as [Hreach Hcases].
  assert (head (faults w0) ≠ Some true) as Hfault by discriminate.
  destruct (Hreach eq_refl eq_refl Hfault eq_refl) as [w' Hw'].
  rewrite Hw' in Hcases.
  destruct Hcases as [[Hr _]|(_ & Hdb & Hone)]; [discriminate Hr|].
  exists w'. split; [exact Hw'|]. split.
  - rewrite Hdb. reflexivity.
  - apply (Hone (mkLesson 1 1 "Propositions" "")); [|reflexivity].
    rewrite Hdb. left.
Defined.

(** The rows of an enrolment whose receiver raises are rolled back. *)
Example enroll_rolled_back :
  enroll (λ _, true) (request "POST" (Some bob) ∅) 1 w0
  = Raise ReceiverError (set_signals [course_enroll 2 1] w0).
Proof. reflexivity. Qed.

Lemma enroll_again_changes_nothing_witness :
  final_state (enroll (λ _, false) (request "POST" (Some dave) ∅) 1 w0) = w0.
Proof.
  apply (enroll_again_changes_nothing (λ _, false)
           (request "POST" (Some dave) ∅) 1 dave w0 eq_refl).
  discriminate.
Defined.

(** C3 as it was stated fails: dave has rows for course 1 and no
    permission to enrol, and is answered with [PermissionDenied]. *)
Lemma enroll_again_counterexample :
  ¬ (∀ (req : Request) (course_id : Z) (u : User) (w : World),
       user req = Some u →
       Tracking_filter (db w) course_id (user_pk u) ≠ [] →
       enroll (λ _, false) req course_id w
       = Ok (HttpResponse already_enrolled) w).
Proof.
  intros H.
  specialize (H (request "POST" (Some dave) ∅) 1 dave w0 eq_refl).
  assert (Tracking_filter (db w0) 1 (user_pk dave) ≠ []) as Hrows
    by discriminate.
  specialize (H Hrows). discriminate H.
Qed.


Lemma course_update_needs_permission_witness :
  final_state (CourseUpdateView course_form
                 (request "POST" (Some bob) course_post) 1 w0) = w0.
Proof.
  apply (course_update_needs_permission course_form
           (request "POST" (Some bob) course_post) 1 w0).
  reflexivity.
Defined.

(** C4 as it was stated fails: carol is not among the authors of
    course 1, holds [learning.change_course] through her group, and her
    update rewrites the course. *)
Lemma course_update_counterexample :
  ¬ (∀ (req : Request) (course_id : Z) (u : User) (w : World),
       user req = Some u →
       (course_id, user_pk u) ∉ course_authors (db w) →
       courses (db (final_state (CourseUpdateView course_form req course_id w)))
       = courses (db w)).
Proof.
  intros H.
  specialize (H (request "POST" (Some carol) course_post) 1 carol w0 eq_refl).
  assert ((1, user_pk carol) ∉ course_authors (db w0)) as Hnot.
  { apply (bool_decide_unpack _). reflexivity. }
  specialize (H Hnot). vm_compute in H. discriminate H.
Qed.

(** C5, at the input where it fails: alice posts a valid update of
    course 1 while the list of courses is cached.  The update goes
    through, the row is rewritten, and the cache still answers
    ['courses'] with the list as it was before. *)
Theorem course_update_leaves_stale_cache :
  let w' := set_db (set_courses
                      (λ _, [mkCourse 1 "Logic II" "Next steps" "2025-02-01"])
                      db0) w0 in
  CourseUpdateView course_form (request "POST" (Some alice) course_post) 1 w0
  = Ok (HttpResponseRedirect (reverse "detail" [("course_id", 1)])) w'
  ∧ cache w' !! "courses" = Some (CachedCourses [course1]).
Proof. split; reflexivity. Qed.

Lemma course_create_author_atomic_witness :
  ∃ w', CourseCreateView course_form
          (request "POST" (Some alice) course_post) w0
        = Ok (redirect (reverse "create_lesson" [("course_id", 2)])) w'
        ∧ courses (db w')
          = [course1; mkCourse 2 "Logic II" "Next steps" "2025-02-01"]
        ∧ (2, 1) ∈ course_authors (db w').
Proof.
  destruct (course_create_author_atomic course_form
              (request "POST" (Some alice) course_post) w0)
    as [Hreach Hcases].
  assert (has_perm (db w0) alice "learning.add_course" = true) as Hperm
    by reflexivity.
  assert (course_form (POST (request "POST" (Some alice) course_post))
          = Some (mkCourseData "Logic II" "Next steps" "2025-02-01")) as Hform
    by reflexivity.
  assert (true ∉ take 2 (faults w0)) as Hfaults by apply not_elem_of_nil.
  destruct (Hreach alice _ eq_refl Hperm eq_refl Hform Hfaults) as [w' Hw'].
  rewrite Hw' in Hcases.
  destruct Hcases
    as [[_ Hno]|(u & form & pk & Hu & Hf & _ & Hr & Hrow & Hpair)].
  - by destruct (Hno 2).
  - exists w'. split; [exact Hw'|].
    injection Hu as <-. injection Hr as <-.
    rewrite Hform in Hf. injection Hf as <-.
    split; [exact Hrow | exact Hpair].
Defined.

(** The same update of a course created or deleted instead: the key
    is gone. *)
Example course_create_run :
  ∃ w', CourseCreateView course_form
          (request "POST" (Some alice) course_post) w0
        = Ok (redirect (reverse "create_lesson" [("course_id", 2)])) w'
        ∧ cache w' !! "courses" = None
        ∧ course_authors (db w') = [(1, 1); (2, 1)].
Proof. eexists. split; [reflexivity|]. split; reflexivity. Qed.

Example course_delete_run :
  ∃ w', CourseDeleteView cascade_delete
          (request "POST" (Some alice) ∅) 1 w0
        = Ok (HttpResponseRedirect (reverse "index" [])) w'
        ∧ cache w' !! "courses" = None
        ∧ courses (db w') = [].
Proof. eexists. split; [reflexivity|]. split; reflexivity. Qed.

(** The author pair fails to be written: the course row goes too. *)
Example course_create_rolled_back :
  CourseCreateView course_form (request "POST" (Some alice) course_post)
    (set_faults [false; true] w0)
  = Raise OperationalError w0.
Proof. reflexivity. Qed.


Lemma remove_booking_partial_witness :
  remove_booking (request "POST" None ∅) 3 (mkSession ∅ None false)
  = Raise AttributeError (mkSession ∅ None false).
Proof.
  apply (remove_booking_partial (request "POST" None ∅) 3
           (mkSession ∅ None false) eq_refl).
  reflexivity.
Defined.

Example remove_booking_first_occurrence :
  remove_booking (request "POST" None ∅) 3
    (mkSession {["favourites" := SList [1; 3; 2; 3]]} None false)
  = Ok (redirect (reverse "index" []))
       (mkSession {["favourites" := SList [1; 2; 3]]} None true).
Proof. reflexivity. Qed.

Example remove_booking_absent :
  remove_booking (request "POST" None ∅) 7
    (mkSession {["favourites" := SList [1; 3]]} None false)
  = Raise ValueError (mkSession {["favourites" := SList [1; 3]]} None false).
Proof. reflexivity. Qed.

Example add_then_remove_booking :
  final_state
    (remove_booking (request "POST" None ∅) 3
       (final_state (add_booking (request "POST" None ∅) 3
                       (mkSession ∅ None false))))
  = mkSession {["favourites" := SList []]} None true.
Proof. reflexivity. Qed.

Lemma paginate_by_cookie_witness :
  get_paginate_by
    (mkRequest "GET" None ∅ ∅
       (browser_store
          (SettingFormView_post
             (request "POST" None {["paginate_by" := "10"]})) ∅))
  = PyStr "10".
Proof.
  apply (paginate_by_cookie
           (request "POST" None {["paginate_by" := "10"]})
           (mkRequest "GET" None ∅ ∅
              (browser_store
                 (SettingFormView_post
                    (request "POST" None {["paginate_by" := "10"]})) ∅))
           ∅ "10"); reflexivity.
Defined.

(** A POST without the field sets the cookie to the text of [None]. *)
Example paginate_by_not_submitted :
  cookie_value <$> cookies (SettingFormView_post (request "POST" None ∅))
                     !! "paginate_by"
  = Some "None".
Proof. reflexivity. Qed.

End Runs.
End LearningSpec.

Module AuthAppSpec.
Import Framework AuthApp.

Section Groups.

Lemma group_pks_of_spec (d : DB) (uid gid : Z) :
  gid ∈ group_pks_of d uid ↔ (uid, gid) ∈ user_groups d.
Proof.
  unfold group_pks_of. rewrite list_elem_of_fmap. split.
  - intros ([u g] & -> & [Hu Hin]%list_elem_of_filter). simpl in *. by subst.
  - intros Hin. exists (uid, gid). split; [done|].
    by apply list_elem_of_filter.
Qed.

(** After [groups.set(objs)] the user is in the groups of [objs] and
    in no other. *)
Lemma groups_set_member (uid : Z) (objs : list Group) (d : DB) (gid : Z) :
  gid ∈ group_pks_of (groups_set uid objs d) uid ↔ gid ∈ group_pk <$> objs.
Proof.
  rewrite group_pks_of_spec. unfold groups_set, set_user_groups. simpl.
  rewrite elem_of_app, list_elem_of_filter, list_elem_of_fmap.
  setoid_rewrite list_elem_of_filter. setoid_rewrite elem_of_remove_dups.
  rewrite <- group_pks_of_spec. split.
  - intros [[Hkeep Hold]|(g & [= ->] & Hnew & Hin)]; [|done].
    simpl in Hkeep.
    destruct (decide (gid ∈ group_pk <$> objs)) as [|Hout]; [done|].
    destruct Hkeep. by repeat split.
  - intros Hin. destruct (decide (gid ∈ group_pks_of d uid)) as [Hold|Hnew].
    + left. split; [|done]. simpl.
      intros [_ [Hout _]]. done.
    + right. by exists gid.
Qed.

(** [groups.set] on one user leaves the groups of the others alone. *)
Lemma groups_set_other (uid uid' : Z) (objs : list Group) (d : DB) (gid : Z) :
  uid' ≠ uid →
  gid ∈ group_pks_of (groups_set uid objs d) uid' ↔ gid ∈ group_pks_of d uid'.
Proof.
  intros Hne. rewrite !group_pks_of_spec.
  unfold groups_set, set_user_groups. simpl.
  rewrite elem_of_app, list_elem_of_filter, list_elem_of_fmap. simpl. split.
  - intros [[_ ?]|(g & [= ? _] & _)]; done.
  - intros Hin. left. split; [|done]. intros [? _]. done.
Qed.

(** The groups of a user the receiver has run for as newly created. *)
Lemma grant_pupil_rights_spec_member (instance : User) (d : DB) (gid : Z) :
  gid ∈ group_pks_of (grant_pupil_rights instance true d) (user_pk instance) ↔
  ∃ g, g ∈ groups d ∧ group_name g = "Ученик" ∧ group_pk g = gid.
Proof.
  unfold grant_pupil_rights. rewrite groups_set_member.
  unfold Group_filter. rewrite list_elem_of_fmap.
  setoid_rewrite list_elem_of_filter. split.
  - intros (g & -> & Hname & Hin). by exists g.
  - intros (g & Hin & Hname & <-). by exists g.
Qed.

(** C6. The receiver of [post_save].  For a user that was just created
    it sets the user's groups to the groups named 'Ученик': afterwards
    the user is in a group exactly when it is a group of that name, the
    memberships of every other user are what they were, and no other
    table changed.  For a save of an existing user it changes
    nothing. *)
Theorem grant_pupil_rights_spec (instance : User) (d : DB) :
  let d' := grant_pupil_rights instance true d in
  (∀ gid, gid ∈ group_pks_of d' (user_pk instance) ↔
          ∃ g, g ∈ groups d ∧ group_name g = "Ученик" ∧ group_pk g = gid)
  ∧ (∀ uid gid, uid ≠ user_pk instance →
       gid ∈ group_pks_of d' uid ↔ gid ∈ group_pks_of d uid)
  ∧ (groups d', courses d', course_authors d', lessons d', trackings d')
    = (groups d, courses d, course_authors d, lessons d, trackings d)
  ∧ grant_pupil_rights instance false d = d.
Proof.
  simpl. split; [|split; [|split]].
  - intros gid. unfold grant_pupil_rights. rewrite groups_set_member.
    unfold Group_filter. rewrite list_elem_of_fmap.
    setoid_rewrite list_elem_of_filter. split.
    + intros (g & -> & Hname & Hin). by exists g.
    + intros (g & Hin & Hname & <-). by exists g.
  - intros uid gid Hne. by apply groups_set_other.
  - done.
  - done.
Qed.

End Groups.

Section Login.
Variable REMEMBER_KEY : string.
Variable REMEMBER_AGE : Z.
Variable render_to_string : string → string → string.
Variable LoginView_form_valid : Request → M LoginState Response.
Variable datetime_now : string.
Variable timezone_now : string.
Variable SESSION_EXPIRE_AT_BROWSER_CLOSE : bool.

Local Abbreviation form_valid :=
  (UserLoginView_form_valid REMEMBER_KEY REMEMBER_AGE render_to_string
                            LoginView_form_valid datetime_now timezone_now).

(** C7. A login that succeeds.  With [is_remember = 'on'] the session
    that the view hands on to the login of the parent class holds the
    time of the request under [REMEMBER_KEY] and has [REMEMBER_AGE] as
    its expiry; with [is_remember = 'off'] it has expiry 0, which is a
    session that ends when the browser is closed, and its entries are
    those it had. *)
Theorem login_remember_me (req : Request) (st st' : LoginState)
    (resp : Response) :
  form_valid req st = Ok resp st' →
  (POST req !! "is_remember" = Some "on" →
   ∃ st1, LoginView_form_valid req st1 = Ok resp st' ∧
          session st1 = session_set_expiry REMEMBER_AGE
                          (session_setitem REMEMBER_KEY (SStr datetime_now)
                                           (session st)) ∧
          session_data (session st1) !! REMEMBER_KEY = Some (SStr datetime_now) ∧
          expiry (session st1) = Some REMEMBER_AGE)
  ∧ (POST req !! "is_remember" = Some "off" →
     ∃ st1, LoginView_form_valid req st1 = Ok resp st' ∧
            session st1 = session_set_expiry 0 (session st) ∧
            expiry (session st1) = Some 0 ∧
            get_expire_at_browser_close SESSION_EXPIRE_AT_BROWSER_CLOSE
                                        (session st1) = true ∧
            session_data (session st1) = session_data (session st)).
Proof.
  unfold UserLoginView_form_valid, send_login_user_email, on_session. run_view.
  intros Hok. split; intros Hr; rewrite Hr in Hok; simpl in Hok.
  - destruct (POST req !! "username") as [username|]; [|done].
    simpl in Hok. eexists. split; [exact Hok|]. simpl.
    split; [done|]. split; [apply lookup_insert_eq | done].
  - destruct (POST req !! "username") as [username|]; [|done].
    simpl in Hok. eexists. split; [exact Hok|]. done.
Qed.

End Login.

Section Runs.
Import Sample.

Lemma login_remember_me_witness :
  ∃ st1,
    login_parent (request "POST" None (login_post "on")) st1
    = Ok (HttpResponseRedirect (reverse "index" []))
         (final_state (login_run "on")) ∧
    session st1 = session_set_expiry 1209600
                    (session_setitem "remember" (SStr "2024-09-01T10:00:00")
                                     (session login_state0)) ∧
    session_data (session st1) !! "remember"
    = Some (SStr "2024-09-01T10:00:00") ∧
    expiry (session st1) = Some 1209600.
Proof.
  apply (login_remember_me "remember" 1209600 (λ _ message, message)
           login_parent "2024-09-01T10:00:00" "2024-09-01T07:00:00+00:00"
           true
           (request "POST" None (login_post "on")) login_state0
           (final_state (login_run "on"))
           (HttpResponseRedirect (reverse "index" []))).
  - reflexivity.
  - reflexivity.
Defined.

Example login_remember_off :
  expiry (session (final_state (login_run "off"))) = Some 0
  ∧ get_expire_at_browser_close false
      (session (final_state (login_run "off"))) = true.
Proof. split; reflexivity. Qed.

(** A new user of the sample site becomes a pupil; saving carol again
    leaves her among the authors. *)
Example grant_pupil_rights_new_user :
  group_pks_of (grant_pupil_rights (mkUser 5 "eve@example.com" true false [])
                  true db0) 5 = [1]
  ∧ group_pks_of (grant_pupil_rights carol false db0) 3 = [2].
Proof. split; reflexivity. Qed.

(** Without a group of that name the new user is left in no group. *)
Example grant_pupil_rights_no_group :
  group_pks_of
    (grant_pupil_rights dave true
       (mkDB [author] [(4, 2)] [] [] [] [])) 4 = [].
Proof. reflexivity. Qed.

End Runs.

End AuthAppSpec.

(** * Further properties of the views *)

Module LearningExtra.
Import Framework Learning LearningSpec.

Section CertificateAndEnroll.
Variable receiver_raises : SignalEvent → bool.

Local Abbreviation new_rows u ls :=
  ((λ lesson, mkTracking (lesson_pk lesson) (user_pk u) false) <$> ls).

(** X1. The certificate is issued when it is due: a logged-in user with at
    least one row for the course, all rows passed, and receivers that do
    not raise, is answered that the certificate was sent; the signal is
    sent once and nothing else changes. *)
Theorem get_certificate_view_issues (req : Request) (course_id : Z)
    (u : User) (w : World) :
  user req = Some u →
  Tracking_filter (db w) course_id (user_pk u) ≠ [] →
  Forall (λ t, passed t = true) (Tracking_filter (db w) course_id (user_pk u)) →
  receiver_raises (get_certificate (user_pk u)) = false →
  get_certificate_view receiver_raises req course_id w
  = Ok (HttpResponse certificate_sent)
       (set_signals (signals w ++ [get_certificate (user_pk u)]) w).
Proof.
  intros Hu Hne Hall Hrecv.
  unfold get_certificate_view, login_required, Signal_send. rewrite Hu.
  run_view.
  rewrite bool_decide_eq_true_2 by (by apply aggregates_equal).
  by rewrite Hrecv.
Qed.

(** X2. The certificate endpoint reads and never writes: whatever the request
    and the outcome, the tables, the cache and the pending faults are what
    they were, and the signal log is the same or longer by one
    certificate signal of the requesting user. *)
Theorem get_certificate_view_read_only (req : Request) (course_id : Z)
    (w : World) :
  let w' := final_state (get_certificate_view receiver_raises req course_id w) in
  db w' = db w ∧ cache w' = cache w ∧ faults w' = faults w ∧
  (signals w' = signals w ∨
   ∃ u, user req = Some u ∧
        signals w' = signals w ++ [get_certificate (user_pk u)]).
Proof.
  simpl. unfold get_certificate_view, login_required, Signal_send. run_view.
  destruct (user req) as [u|]; [|by repeat split; try left].
  case_bool_decide; [|by repeat split; try left].
  destruct (receiver_raises _); simpl; repeat split; right; by exists u.
Qed.

(** X3. Enrolment only appends: whatever the request and the outcome, the
    tracking table afterwards is the old one followed by new rows, every
    new row is not passed and belongs to the requesting user, and no other
    table and no cache entry changed. *)
Theorem enroll_append_only (req : Request) (course_id : Z) (w : World) :
  let w' := final_state (enroll receiver_raises req course_id w) in
  ∃ new,
    trackings (db w') = trackings (db w) ++ new ∧
    Forall (λ t, passed t = false ∧ Some (tr_user t) = user_pk <$> user req) new ∧
    (groups (db w'), user_groups (db w'), courses (db w'),
     course_authors (db w'), lessons (db w'))
    = (groups (db w), user_groups (db w), courses (db w),
       course_authors (db w), lessons (db w)) ∧
    cache w' = cache w.
Proof.
  simpl. destruct (user req) as [u|] eqn:Hu.
  - rewrite (enroll_cases _ _ _ u) by done.
    assert (∃ new, trackings (db w) = trackings (db w) ++ new ∧
              Forall (λ t, passed t = false ∧ Some (tr_user t) = Some (user_pk u)) new)
      as Hsame by (exists []; by rewrite app_nil_r).
    destruct (has_perm _ _ _); [|destruct Hsame as (new & ? & ?); by exists new].
    case_bool_decide; [destruct Hsame as (new & ? & ?); by exists new|].
    unfold atomic, bulk_create, Signal_send, db_write. run_view.
    destruct w as [d c sg fl]. simpl in *.
    destruct Hsame as (nil & Hnil & Hnilall).
    assert (Forall (λ t, passed t = false ∧ Some (tr_user t) = Some (user_pk u))
                   (new_rows u (Lesson_filter d course_id))) as Hnew.
    { apply Forall_fmap, Forall_forall. by intros l _. }
    destruct (new_rows u (Lesson_filter d course_id)) as [|t ts] eqn:Hrows.
    + destruct (receiver_raises _); simpl; by exists nil.
    + destruct fl as [|[] fs]; simpl; [| by exists nil |];
        destruct (receiver_raises _); simpl;
        first [ by exists nil | by exists (t :: ts) ].
  - unfold enroll, atomic, login_required. rewrite Hu. simpl.
    exists []. by rewrite app_nil_r.
Qed.

(** What a first enrolment that went through found and left. *)
Lemma enroll_went_through (req : Request) (course_id : Z) (u : User)
    (w w' : World) :
  user req = Some u →
  enroll receiver_raises req course_id w
  = Ok (redirect (reverse "tracking" [])) w' →
  has_perm (db w) u "learning.add_tracking" = true ∧
  db w' = set_trackings
            (λ l, l ++ new_rows u (Lesson_filter (db w) course_id)) (db w).
Proof.
  intros Hu. rewrite (enroll_cases _ _ _ u) by done.
  destruct (has_perm _ _ _); [|done].
  case_bool_decide; [by intros [= ?]|].
  pose proof (enroll_body_outcome receiver_raises u course_id w) as Hbody.
  intros Hout. rewrite Hout in Hbody. by destruct Hbody as (_ & ? & _).
Qed.

(** After it, the first lesson of the course has a row of the user, not
    passed, among those the two views look up. *)
Lemma enrolled_row (d : DB) (course_id : Z) (u : User) (l : Lesson)
    (ls : list Lesson) :
  Lesson_filter d course_id = l :: ls →
  mkTracking (lesson_pk l) (user_pk u) false
  ∈ Tracking_filter
      (set_trackings (λ old, old ++ new_rows u (Lesson_filter d course_id)) d)
      course_id (user_pk u).
Proof.
  intros Hls.
  assert (l ∈ Lesson_filter d course_id) as Hl by (rewrite Hls; left).
  apply list_elem_of_filter in Hl as [Hc Hl].
  unfold Tracking_filter. simpl. apply list_elem_of_filter. split.
  - split; [done|]. apply Exists_exists. by exists l.
  - apply elem_of_app. right. rewrite Hls, fmap_cons. left.
Qed.

(** X4. Enrolling twice: after an enrolment that went through, in a course
    that has a lesson, the same request is answered that the user is
    enrolled already, and changes nothing. *)
Theorem enroll_twice (req : Request) (course_id : Z) (u : User)
    (w w' : World) :
  user req = Some u →
  Lesson_filter (db w) course_id ≠ [] →
  enroll receiver_raises req course_id w
  = Ok (redirect (reverse "tracking" [])) w' →
  enroll receiver_raises req course_id w' = Ok (HttpResponse already_enrolled) w'.
Proof.
  intros Hu Hls Hfirst.
  destruct (enroll_went_through _ _ _ _ _ Hu Hfirst) as [Hperm Hdb].
  rewrite (enroll_cases _ _ _ u) by done. rewrite Hdb.
  change (has_perm (set_trackings _ (db w)) u "learning.add_tracking")
    with (has_perm (db w) u "learning.add_tracking").
  rewrite Hperm.
  destruct (Lesson_filter (db w) course_id) as [|l ls] eqn:Hl; [done|].
  rewrite bool_decide_eq_true_2; [done|].
  rewrite <- Hl. intros Hnone.
  pose proof (enrolled_row (db w) course_id u l ls Hl) as Hrow.
  rewrite Hnone in Hrow. by apply elem_of_nil in Hrow.
Qed.

(** X5. A course without lessons: enrolment goes through, sends its signal
    and creates nothing, so the user never counts as enrolled: the same
    request goes through again, with a second signal. *)
Theorem enroll_course_without_lessons (req : Request) (course_id : Z)
    (u : User) (w : World) :
  user req = Some u →
  has_perm (db w) u "learning.add_tracking" = true →
  Lesson_filter (db w) course_id = [] →
  receiver_raises (course_enroll (user_pk u) course_id) = false →
  let ev := course_enroll (user_pk u) course_id in
  let w1 := set_signals (signals w ++ [ev]) w in
  enroll receiver_raises req course_id w
  = Ok (redirect (reverse "tracking" [])) w1
  ∧ enroll receiver_raises req course_id w1
    = Ok (redirect (reverse "tracking" []))
         (set_signals ((signals w ++ [ev]) ++ [ev]) w).
Proof.
  intros Hu Hperm Hls Hrecv. simpl.
  assert (Tracking_filter (db w) course_id (user_pk u) = []) as Hnone.
  { destruct (Tracking_filter _ _ _) as [|t ts] eqn:Hrows; [done|].
    assert (t ∈ Tracking_filter (db w) course_id (user_pk u)) as Ht
      by (rewrite Hrows; left).
    apply list_elem_of_filter in Ht as [[_ Hex] _].
    apply Exists_exists in Hex as (l & Hl & _ & Hc).
    assert (l ∈ Lesson_filter (db w) course_id) as Hin
      by (by apply list_elem_of_filter).
    rewrite Hls in Hin. by apply elem_of_nil in Hin. }
  assert (∀ sg, enroll receiver_raises req course_id (set_signals sg w)
                = Ok (redirect (reverse "tracking" []))
                     (set_signals (sg ++ [course_enroll (user_pk u) course_id]) w))
    as Hrun.
  { intros sg. rewrite (enroll_cases _ _ _ u) by done. simpl.
    rewrite Hperm, Hnone. simpl.
    unfold atomic, bulk_create, Signal_send. run_view. simpl.
    rewrite Hls. simpl. by rewrite Hrecv. }
  split; [|apply Hrun].
  rewrite <- (Hrun (signals w)). f_equal. by destruct w.
Qed.

(** X6. Enrolment, then the certificate: right after an enrolment that went
    through in a course that has a lesson, the certificate endpoint
    answers that the course is not completed, and changes nothing. *)
Theorem certificate_after_enroll (req req' : Request) (course_id : Z)
    (u : User) (w w' : World) :
  user req = Some u →
  user req' = Some u →
  Lesson_filter (db w) course_id ≠ [] →
  enroll receiver_raises req course_id w
  = Ok (redirect (reverse "tracking" [])) w' →
  get_certificate_view receiver_raises req' course_id w'
  = Ok (HttpResponse course_not_completed) w'.
Proof.
  intros Hu Hu' Hls Hfirst.
  destruct (enroll_went_through _ _ _ _ _ Hu Hfirst) as [_ Hdb].
  destruct (Lesson_filter (db w) course_id) as [|l ls] eqn:Hl; [done|].
  pose proof (enrolled_row (db w) course_id u l ls Hl) as Hrow.
  rewrite Hl, <- Hdb in Hrow.
  unfold get_certificate_view, login_required. rewrite Hu'. run_view.
  rewrite bool_decide_eq_false_2; [done|].
  intros [_ Hall]%aggregates_equal.
  rewrite Forall_forall in Hall. by specialize (Hall _ Hrow).
Qed.

(** X7. The tracking page after an enrolment that went through: it lists,
    for every lesson of the course, the new row of the user under the
    title of the course; and every row it lists is a row of the user. *)
Theorem tracking_page_after_enroll (req : Request) (course_id : Z)
    (u : User) (w w' : World) :
  user req = Some u →
  enroll receiver_raises req course_id w
  = Ok (redirect (reverse "tracking" [])) w' →
  (∀ l c, l ∈ lessons (db w) → lesson_course l = course_id →
          c ∈ courses (db w) → course_pk c = course_id →
          (mkTracking (lesson_pk l) (user_pk u) false, title c)
          ∈ TrackingView_get_queryset u (db w'))
  ∧ (∀ row, row ∈ TrackingView_get_queryset u (db w') →
            tr_user row.1 = user_pk u).
Proof.
  intros Hu Hfirst.
  destruct (enroll_went_through _ _ _ _ _ Hu Hfirst) as [_ Hdb].
  rewrite Hdb. unfold TrackingView_get_queryset. simpl. split.
  - intros l c Hl Hlc Hc Hcc.
    apply list_elem_of_bind.
    exists (mkTracking (lesson_pk l) (user_pk u) false). split.
    + apply list_elem_of_bind. exists l. split.
      * apply list_elem_of_bind. exists c. split; [left|].
        apply list_elem_of_filter. by rewrite Hcc, Hlc.
      * by apply list_elem_of_filter.
    + apply list_elem_of_filter. split; [done|].
      apply elem_of_app. right. apply list_elem_of_fmap. exists l.
      split; [done|]. by apply list_elem_of_filter.
  - intros row (t & Hrow & Ht)%list_elem_of_bind.
    apply list_elem_of_filter in Ht as [Ht _].
    apply list_elem_of_bind in Hrow as (l & Hrow & _).
    apply list_elem_of_bind in Hrow as (c & Hrow & _).
    apply list_elem_of_singleton in Hrow as ->. done.
Qed.

End CertificateAndEnroll.

Section CourseViews.
Variable CourseForm : gmap string string → option CourseData.
Variable Course_delete : Z → DB → DB.



(** The object the update and the deletion work on has the key asked for. *)
Lemma get_object_pk (course_id : Z) (w w' : World) (obj : Course) :
  get_object course_id w = Ok obj w' →
  w' = w ∧ course_pk obj = course_id ∧ obj ∈ courses (db w).
Proof.
  unfold get_object. run_view.
  destruct (head _) as [c|] eqn:Hhead; [|done]. intros [= -> <-].
  apply head_Some in Hhead as [cs Hf].
  assert (obj ∈ filter (λ c, course_pk c = course_id) (courses (db w))) as Hin
    by (rewrite Hf; left).
  by apply list_elem_of_filter in Hin as [? ?].
Qed.

(** Rewriting one row keeps every key where it is and the other rows as
    they are. *)
Lemma rewrite_row_keys (pk : Z) (new : Course) (l : list Course) :
  course_pk new = pk →
  course_pk <$> ((λ c, if bool_decide (course_pk c = pk) then new else c) <$> l)
  = course_pk <$> l.
Proof.
  intros Hnew. rewrite <- list_fmap_compose. apply list_fmap_ext.
  intros i c _. simpl. case_bool_decide; congruence.
Qed.

Lemma rewrite_row_other (pk : Z) (new c : Course) (l : list Course) :
  c ∈ l → course_pk c ≠ pk →
  c ∈ (λ c, if bool_decide (course_pk c = pk) then new else c) <$> l.
Proof.
  intros Hin Hne. apply list_elem_of_fmap. exists c. split; [|done].
  by rewrite bool_decide_eq_false_2.
Qed.

(** What an update leaves in the tables. *)
Lemma course_update_rows (req : Request) (course_id : Z) (w : World) :
  let w' := final_state (CourseUpdateView CourseForm req course_id w) in
  course_pk <$> courses (db w') = course_pk <$> courses (db w)
  ∧ (∀ c, c ∈ courses (db w) → course_pk c ≠ course_id → c ∈ courses (db w'))
  ∧ (course_authors (db w'), lessons (db w'), trackings (db w'),
     groups (db w'), user_groups (db w'))
    = (course_authors (db w), lessons (db w), trackings (db w),
       groups (db w), user_groups (db w)).
Proof.
  simpl.
  unfold CourseUpdateView, LoginRequired_PermissionRequired,
    handle_no_permission, View_dispatch.
  run_view.
  destruct (user req) as [u|]; [|done].
  destruct (has_perm _ _ _); [|done].
  destruct (_ || _).
  - destruct (get_object course_id w) as [obj w1|e w1] eqn:Hobj.
    + apply get_object_pk in Hobj as (-> & Hpk & Hin).
      destruct (CourseForm (POST req)) as [form|]; [|done].
      unfold Course_update, db_write. run_view.
      destruct w as [d c sg fl]. simpl in *.
      destruct fl as [|[] fs]; simpl; try done;
        (split; [by apply rewrite_row_keys|]; split; [|done];
         intros c0 Hc0 Hne; apply rewrite_row_other; congruence).
    + unfold get_object in Hobj. run_view.
      destruct (head _); by simplify_eq.
  - destruct (_ || _).
    + destruct (get_object course_id w) as [obj w1|e w1] eqn:Hobj.
      * by apply get_object_pk in Hobj as (-> & _ & _).
      * unfold get_object in Hobj. run_view.
        destruct (head _); by simplify_eq.
    + destruct (bool_decide _); done.
Qed.

(** X10. An update changes the row it is asked to change and nothing else:
    whatever the request and the outcome, the courses keep their keys and
    their order, every course with another key is as it was, and the
    authors, the lessons, the tracking rows and the groups are as they
    were. *)
Theorem course_update_only_that_row (req : Request) (course_id : Z)
    (w : World) :
  let w' := final_state (CourseUpdateView CourseForm req course_id w) in
  course_pk <$> courses (db w') = course_pk <$> courses (db w)
  ∧ (∀ c, c ∈ courses (db w) → course_pk c ≠ course_id → c ∈ courses (db w'))
  ∧ (course_authors (db w'), lessons (db w'), trackings (db w'),
     groups (db w'), user_groups (db w'))
    = (course_authors (db w), lessons (db w), trackings (db w),
       groups (db w), user_groups (db w)).
Proof. apply course_update_rows. Qed.

(** What the creation view leaves in the course table: the table as it
    was, or the table with one more row under a fresh key. *)
Lemma course_create_courses (req : Request) (w : World) :
  courses (db (final_state (CourseCreateView CourseForm req w))) = courses (db w)
  ∨ ∃ c, course_pk c = fresh_pk (course_pk <$> courses (db w)) ∧
         courses (db (final_state (CourseCreateView CourseForm req w)))
         = courses (db w) ++ [c].
Proof.
  unfold CourseCreateView, LoginRequired_PermissionRequired,
    handle_no_permission, View_dispatch.
  run_view.
  destruct (user req) as [u|]; [|by left].
  destruct (has_perm _ _ _); [|by left].
  destruct (_ || _).
  - destruct (CourseForm (POST req)) as [form|]; [|by left].
    pose proof (course_create_form_valid_outcome u form w) as Hfv.
    destruct (CourseCreateView_form_valid u form w) as [r w'|e w']; simpl.
    + destruct Hfv as (_ & Hrow & _). right. eexists. by split; [|exact Hrow].
    + left. by rewrite Hfv.
  - destruct (_ || _); [by left|]. destruct (bool_decide _); by left.
Qed.

(** X11. Keys stay unique: when no two courses share a key, none do after a
    creation or an update, whatever the request and the outcome. *)
Theorem course_keys_stay_unique (req : Request) (course_id : Z) (w : World) :
  NoDup (course_pk <$> courses (db w)) →
  NoDup (course_pk <$>
           courses (db (final_state (CourseCreateView CourseForm req w))))
  ∧ NoDup (course_pk <$>
             courses (db (final_state
                            (CourseUpdateView CourseForm req course_id w)))).
Proof.
  intros Hnd. split.
  - destruct (course_create_courses req w) as [-> | (c & Hpk & ->)]; [done|].
    rewrite fmap_app. apply NoDup_app. split; [done|]. split.
    + intros pk Hin [->|[]%elem_of_nil]%elem_of_cons.
      rewrite Hpk in Hin. by apply fresh_pk_fresh in Hin.
    + apply NoDup_singleton.
  - pose proof (course_update_rows req course_id w) as [Hkeys _].
    simpl in Hkeys. by rewrite Hkeys.
Qed.

(** X12. A form with errors changes nothing, on creation and on update. *)
Theorem course_form_with_errors (req : Request) (course_id : Z) (w : World) :
  CourseForm (POST req) = None →
  final_state (CourseCreateView CourseForm req w) = w
  ∧ final_state (CourseUpdateView CourseForm req course_id w) = w.
Proof.
  intros Hform.
  unfold CourseCreateView, CourseUpdateView, LoginRequired_PermissionRequired,
    handle_no_permission, View_dispatch, get_object.
  run_view. rewrite Hform.
  split; repeat (case_match; simplify_eq/=; try done).
Qed.

End CourseViews.

Section Caches.
Variable CourseForm : gmap string string → option CourseData.
Variable Course_delete : Z → DB → DB.
Variable Course_search : string → string → list Course → option (list Course).

Local Abbreviation not_a_search req :=
  (dom (GET req) ≠ ({["search"; "price_order"]} : gset string)).






(** A later request: the cache as it was left, the tables and the clock
    as they have become. *)
Local Abbreviation later d' t' tw :=
  (mkTimed (set_db d' (timed_world tw)) t' (deadlines tw)).

(** X14. The page of a course serves its lessons through the cache, for 30
    seconds.  The call never fails and never writes to the tables.
    Without a live entry it serves the lessons of the table and stores
    them with a deadline 30 seconds after the request.  A later request
    is given the same answer as long as the deadline of the entry has not
    come, whatever the tables have become, and the lessons of the table
    of that time once it has. *)
Theorem detail_lessons_cached (course_id : Z) (tw : Timed) :
  ∃ v tw1,
    CourseDetailView_get_queryset course_id tw = Ok v tw1 ∧
    db (timed_world tw1) = db (timed_world tw) ∧
    (cache_get (lessons_key course_id) tw = None →
     v = CachedLessons (Lesson_filter (db (timed_world tw)) course_id) ∧
     deadlines tw1 !! lessons_key course_id = Some (now tw + 30)) ∧
    (∀ d' t',
       (∀ deadline, deadlines tw1 !! lessons_key course_id = Some deadline →
                    t' < deadline) →
       CourseDetailView_get_queryset course_id (later d' t' tw1)
       = Ok v (later d' t' tw1)) ∧
    (∀ d' t' deadline,
       deadlines tw1 !! lessons_key course_id = Some deadline →
       deadline ≤ t' →
       CourseDetailView_get_queryset course_id (later d' t' tw1)
       = Ok (CachedLessons (Lesson_filter d' course_id))
            (cache_set (lessons_key course_id)
               (CachedLessons (Lesson_filter d' course_id)) 30
               (later d' t' tw1))).
Proof.
  unfold CourseDetailView_get_queryset, cache_get_or_set.
  destruct (cache_get (lessons_key course_id) tw) as [v|] eqn:Hget.
  - exists v, tw. split; [done|]. split; [done|]. split; [done|].
    unfold cache_get in *. simpl. split.
    + intros d' t' Hlive.
      destruct (deadlines tw !! lessons_key course_id) as [deadline|]; simpl.
      * specialize (Hlive deadline eq_refl).
        rewrite bool_decide_eq_false_2 by lia.
        case_bool_decide; [done|]. by rewrite Hget.
      * by rewrite Hget.
    + intros d' t' deadline Hdl Hexp. rewrite Hdl.
      by rewrite bool_decide_eq_true_2.
  - eexists _, _. split; [done|]. split; [done|].
    unfold cache_get, cache_set. simpl. rewrite !lookup_insert_eq.
    split; [done|]. split.
    + intros d' t' Hlive. specialize (Hlive _ eq_refl).
      by rewrite bool_decide_eq_false_2 by lia.
    + intros d' t' deadline [= <-] Hexp.
      by rewrite bool_decide_eq_true_2.
Qed.

(** X15. After a deletion that went through.  The request was a POST or an
    HTTP DELETE.  After a POST the page of the deleted course finds no
    entry, at whatever time, and reads its lessons from the table again;
    an HTTP DELETE removes the course without touching the cache. *)
Theorem detail_after_delete (req : Request) (course_id : Z) (w w' : World)
    (t : Z) (dl : gmap string Z) :
  CourseDeleteView Course_delete req course_id w
  = Ok (HttpResponseRedirect (reverse "index" [])) w' →
  (method req = "POST" ∨ method req = "DELETE")
  ∧ (method req = "POST" →
     CourseDetailView_get_queryset course_id (mkTimed w' t dl)
     = Ok (CachedLessons (Lesson_filter (db w') course_id))
          (cache_set (lessons_key course_id)
             (CachedLessons (Lesson_filter (db w') course_id)) 30
             (mkTimed w' t dl)))
  ∧ (method req = "DELETE" → cache w' = cache w).
Proof.
  intros Hout. split; [|split].
  - revert Hout.
    unfold CourseDeleteView, LoginRequired_PermissionRequired,
      handle_no_permission, DeleteView_dispatch, get_object.
    run_view.
    destruct (user req); [|done]. destruct (has_perm _ _ _); [|done].
    case_bool_decide; [by left|]. case_bool_decide; [by right|].
    repeat (case_match; simplify_eq/=; try done).
  - intros Hm.
    destruct (course_delete_invalidates Course_delete _ _ _ _ Hm Hout)
      as [_ Hgone].
    unfold CourseDetailView_get_queryset, cache_get_or_set, cache_get. simpl.
    rewrite Hgone. by destruct (dl !! lessons_key course_id); [case_bool_decide|].
  - intros Hm. revert Hout.
    unfold CourseDeleteView, LoginRequired_PermissionRequired,
      handle_no_permission, DeleteView_dispatch, get_object, db_write.
    rewrite Hm. run_view.
    repeat (case_match; simplify_eq/=; try done); by intros [= <-].
Qed.

(** X16. The list of courses is served from the cache while the entry is
    there: after any request to the update view, gone through or not, a
    list request that is not a search is answered with the rows that were
    cached before, and reads nothing else. *)
Theorem list_stale_after_update (req upd : Request) (course_id : Z)
    (rows : list Course) (p : Process) :
  cache (world p) !! "courses" = Some (CachedCourses rows) →
  not_a_search req →
  let p' := final_state
              (on_world (CourseUpdateView CourseForm upd course_id) p) in
  MainView_get_queryset Course_search req p' = Ok (Some rows) p'.
Proof.
  intros Hc Hq. simpl.
  pose proof (course_update_keeps_cache CourseForm upd course_id (world p)) as Hk.
  unfold on_world.
  destruct (CourseUpdateView CourseForm upd course_id (world p)) as [r w'|e w'];
    simpl in *; unfold MainView_get_queryset; run_view; simpl;
    rewrite Hk, Hc; simpl; by rewrite bool_decide_eq_true_2.
Qed.

(** X17. The rows of the list belong to the process: after a creation that
    went through, which removes the cached list, a list request that is
    not a search is answered with the rows the process evaluated earlier,
    if it did, and with the table only if it never did; either way these
    rows are cached again and kept by the process. *)
Theorem list_after_create (req creq : Request) (pk : Z) (w w' : World)
    (held : option (list Course)) :
  CourseCreateView CourseForm creq w
  = Ok (redirect (reverse "create_lesson" [("course_id", pk)])) w' →
  not_a_search req →
  let rows := default (courses (db w')) held in
  MainView_get_queryset Course_search req (mkProcess w' held)
  = Ok (Some rows)
       (mkProcess (set_cache (<["courses" := CachedCourses rows]> (cache w')) w')
                  (Some rows)).
Proof.
  intros Hgone%course_create_invalidates Hq. simpl.
  unfold MainView_get_queryset, on_world. run_view. simpl. rewrite Hgone.
  destruct held as [rows|]; simpl; by rewrite bool_decide_eq_true_2.
Qed.

(** X18. The favourites page, when the request is not a search and the cache
    holds courses or nothing under ['courses']: it lists the courses of
    the table whose key is among the favourites of the session (none when
    the session has no favourites), read from the table, and leaves the
    tables as they are. *)
Theorem favourites_listed (req : Request) (s : Session) (ids : list Z)
    (p : Process) :
  not_a_search req →
  (∀ ls, cache (world p) !! "courses" ≠ Some (CachedLessons ls)) →
  (session_data s !! "favourites" = Some (SList ids)
   ∨ (session_data s !! "favourites" = None ∧ ids = [])) →
  ∃ p1,
    FavouriteView_get_queryset Course_search req s p
    = Ok (Some (filter (λ c, course_pk c ∈ ids) (courses (db (world p))))) p1
    ∧ db (world p1) = db (world p).
Proof.
  intros Hq Hcache Hfav.
  assert (match session_data s !! "favourites" with
          | None => Some []
          | Some (SList l) => Some l
          | Some (SStr _) => None
          end = Some ids) as Hids.
  { by destruct Hfav as [-> | [-> ->]]. }
  unfold FavouriteView_get_queryset, MainView_get_queryset, on_world.
  run_view. simpl. rewrite Hids.
  destruct (cache (world p) !! "courses") as [[rows|ls]|] eqn:Hc; simpl.
  - rewrite !bool_decide_eq_true_2 by done. by eexists.
  - by destruct (Hcache ls).
  - destruct (MainView_queryset p); simpl;
      rewrite !bool_decide_eq_true_2 by done; by eexists.
Qed.

End Caches.

Section Bookmarks.
Variable Course_search : string → string → list Course → option (list Course).

Local Abbreviation favourites_of s :=
  (match session_data s !! "favourites" with
   | Some (SList l) => l
   | _ => []
   end).

(** A POST to [add_booking] on a session whose favourites, if any, are a
    list. *)
Lemma add_booking_posted (req : Request) (course_id : Z) (s : Session) :
  method req = "POST" →
  (∀ str, session_data s !! "favourites" ≠ Some (SStr str)) →
  add_booking req course_id s
  = Ok (redirect (reverse "index" []))
       (mkSession (<["favourites" := SList (favourites_of s ++ [course_id])]>
                     (session_data s))
                  (expiry s) true).
Proof.
  intros Hm Hlist. unfold add_booking. rewrite bool_decide_eq_true_2 by done.
  run_view.
  destruct (session_data s !! "favourites") as [[str|l]|] eqn:Hfav; simpl.
  - by destruct (Hlist str).
  - done.
  - done.
Qed.

(** Removing what was just appended: the removal finds something, what is
    left has the elements of the list before, is that very list when the
    element was new, and still holds the element when it was not. *)
Lemma list_remove_appended (x : Z) (l : list Z) :
  ∃ l', list_remove x (l ++ [x]) = Some l' ∧ l' ≡ₚ l ∧
        (x ∉ l → l' = l) ∧ (x ∈ l → x ∈ l').
Proof.
  induction l as [|y l (l' & Hrem & Hperm & Hnew & Hold)]; simpl.
  - exists []. rewrite bool_decide_eq_true_2 by done.
    repeat split; try done.
  - case_bool_decide as Hy.
    + subst y. exists (l ++ [x]). split; [done|]. split.
      * by rewrite Permutation_app_comm.
      * split; [intros []; left | intros _; set_solver].
    + rewrite Hrem. exists (y :: l'). split; [done|]. split.
      * by rewrite Hperm.
      * split.
        -- intros [_ Hnin]%not_elem_of_cons. by rewrite Hnew.
        -- intros [->|Hin]%elem_of_cons; [done|]. right. by apply Hold.
Qed.

(** X19. Bookmark, then remove the bookmark.  On POST requests, with
    favourites that are a list or absent, the removal that follows an
    addition of the same course never raises; the favourites it leaves
    have the elements they had before the addition, are that very list
    when the course was not a favourite yet, and still hold the course
    when it was one: a course bookmarked twice stays a favourite after
    one removal. *)
Theorem booking_round_trip (req : Request) (course_id : Z) (s : Session) :
  method req = "POST" →
  (∀ str, session_data s !! "favourites" ≠ Some (SStr str)) →
  ∃ left,
    remove_booking req course_id (final_state (add_booking req course_id s))
    = Ok (redirect (reverse "index" []))
         (mkSession (<["favourites" := SList left]> (session_data s))
                    (expiry s) true)
    ∧ left ≡ₚ favourites_of s
    ∧ (course_id ∉ favourites_of s → left = favourites_of s)
    ∧ (course_id ∈ favourites_of s → course_id ∈ left).
Proof.
  intros Hm Hlist. rewrite add_booking_posted by done. simpl.
  destruct (list_remove_appended course_id (favourites_of s))
    as (left & Hrem & Hperm & Hnew & Hold).
  exists left. split; [|done].
  unfold remove_booking. rewrite bool_decide_eq_true_2 by done.
  run_view. simpl. rewrite lookup_insert_eq, Hrem. simpl.
  by rewrite insert_insert_eq.
Qed.

(** X20. A bookmarked course shows on the favourites page: after a POST to
    [add_booking], a request for the page that is not a search lists
    every course of the table that has the key. *)
Theorem favourite_after_add (req page : Request) (course_id : Z)
    (s : Session) (p : Process) (c : Course) :
  method req = "POST" →
  (∀ str, session_data s !! "favourites" ≠ Some (SStr str)) →
  dom (GET page) ≠ ({["search"; "price_order"]} : gset string) →
  (∀ ls, cache (world p) !! "courses" ≠ Some (CachedLessons ls)) →
  c ∈ courses (db (world p)) →
  course_pk c = course_id →
  ∃ rows p1,
    FavouriteView_get_queryset Course_search page
      (final_state (add_booking req course_id s)) p
    = Ok (Some rows) p1
    ∧ c ∈ rows.
Proof.
  intros Hm Hlist Hq Hcache Hc Hpk. rewrite add_booking_posted by done. simpl.
  unfold FavouriteView_get_queryset, MainView_get_queryset, on_world.
  run_view. simpl. rewrite lookup_insert_eq.
  assert (c ∈ filter (λ c, course_pk c ∈ favourites_of s ++ [course_id])
                     (courses (db (world p)))) as Hin.
  { apply list_elem_of_filter. split; [|done]. rewrite Hpk. set_solver. }
  destruct (cache (world p) !! "courses") as [[rows|ls]|] eqn:Hcc; simpl.
  - rewrite !bool_decide_eq_true_2 by done. by eexists _, _.
  - by destruct (Hcache ls).
  - destruct (MainView_queryset p); simpl;
      rewrite !bool_decide_eq_true_2 by done; by eexists _, _.
Qed.

End Bookmarks.

Section Runs.
Import Sample.

Lemma get_certificate_view_issues_witness :
  get_certificate_view (λ _, false) (request "GET" (Some dave) ∅) 1 w_passed
  = Ok (HttpResponse certificate_sent)
       (set_signals [get_certificate 4] w_passed).
Proof.
  apply (get_certificate_view_issues (λ _, false)
           (request "GET" (Some dave) ∅) 1 dave w_passed eq_refl).
  - discriminate.
  - repeat constructor.
  - reflexivity.
Defined.

Lemma enroll_twice_witness :
  enroll (λ _, false) (request "POST" (Some bob) ∅) 1
    (final_state (enroll (λ _, false) (request "POST" (Some bob) ∅) 1 w0))
  = Ok (HttpResponse already_enrolled)
       (final_state (enroll (λ _, false) (request "POST" (Some bob) ∅) 1 w0)).
Proof.
  apply (enroll_twice (λ _, false) (request "POST" (Some bob) ∅) 1 bob w0).
  - reflexivity.
  - discriminate.
  - reflexivity.
Defined.

Lemma enroll_course_without_lessons_witness :
  enroll (λ _, false) (request "POST" (Some bob) ∅) 9 w0
  = Ok (redirect (reverse "tracking" [])) (set_signals [course_enroll 2 9] w0)
  ∧ enroll (λ _, false) (request "POST" (Some bob) ∅) 9
      (set_signals [course_enroll 2 9] w0)
    = Ok (redirect (reverse "tracking" []))
         (set_signals [course_enroll 2 9; course_enroll 2 9] w0).
Proof.
  apply (enroll_course_without_lessons (λ _, false)
           (request "POST" (Some bob) ∅) 9 bob w0); reflexivity.
Defined.

Lemma certificate_after_enroll_witness :
  get_certificate_view (λ _, false) (request "GET" (Some bob) ∅) 1
    (final_state (enroll (λ _, false) (request "POST" (Some bob) ∅) 1 w0))
  = Ok (HttpResponse course_not_completed)
       (final_state (enroll (λ _, false) (request "POST" (Some bob) ∅) 1 w0)).
Proof.
  apply (certificate_after_enroll (λ _, false)
           (request "POST" (Some bob) ∅) (request "GET" (Some bob) ∅) 1 bob w0).
  - reflexivity.
  - reflexivity.
  - discriminate.
  - reflexivity.
Defined.

Lemma tracking_page_after_enroll_witness :
  (mkTracking 2 2 false, "Logic")
  ∈ TrackingView_get_queryset bob
      (db (final_state (enroll (λ _, false) (request "POST" (Some bob) ∅) 1 w0))).
Proof.
  apply (proj1 (tracking_page_after_enroll (λ _, false)
                  (request "POST" (Some bob) ∅) 1 bob w0
                  (final_state (enroll (λ _, false)
                                  (request "POST" (Some bob) ∅) 1 w0))
                  eq_refl eq_refl)
               (mkLesson 2 1 "Proofs" "") course1).
  - right. left.
  - reflexivity.
  - left.
  - reflexivity.
Defined.



Lemma course_keys_stay_unique_witness :
  NoDup (course_pk <$>
           courses (db (final_state
                          (CourseCreateView course_form
                             (request "POST" (Some alice) course_post) w0))))
  ∧ NoDup (course_pk <$>
             courses (db (final_state
                            (CourseUpdateView course_form
                               (request "POST" (Some alice) course_post) 1 w0)))).
Proof.
  apply (course_keys_stay_unique course_form
           (request "POST" (Some alice) course_post) 1 w0).
  apply (bool_decide_unpack _). reflexivity.
Defined.

Lemma course_form_with_errors_witness :
  final_state (CourseCreateView course_form (request "POST" (Some alice) ∅) w0)
  = w0
  ∧ final_state (CourseUpdateView course_form
                   (request "POST" (Some alice) ∅) 1 w0) = w0.
Proof.
  apply (course_form_with_errors course_form (request "POST" (Some alice) ∅) 1 w0).
  reflexivity.
Defined.


Lemma detail_after_delete_witness :
  CourseDetailView_get_queryset 1
    (mkTimed (final_state (CourseDeleteView cascade_delete
                             (request "POST" (Some alice) ∅) 1 w0))
             100 {[lessons_key 1 := 120]})
  = Ok (CachedLessons [])
       (cache_set (lessons_key 1) (CachedLessons []) 30
          (mkTimed (final_state (CourseDeleteView cascade_delete
                                   (request "POST" (Some alice) ∅) 1 w0))
                   100 {[lessons_key 1 := 120]})).
Proof.
  apply (proj1 (proj2 (detail_after_delete cascade_delete
                         (request "POST" (Some alice) ∅) 1 w0
                         (final_state (CourseDeleteView cascade_delete
                                         (request "POST" (Some alice) ∅) 1 w0))
                         100 {[lessons_key 1 := 120]} eq_refl))).
  reflexivity.
Defined.

(** The same course removed by an HTTP DELETE: the cached list stays. *)
Example course_delete_by_DELETE :
  ∃ w', CourseDeleteView cascade_delete (request "DELETE" (Some alice) ∅) 1 w0
        = Ok (HttpResponseRedirect (reverse "index" [])) w'
        ∧ courses (db w') = []
        ∧ cache w' !! "courses" = Some (CachedCourses [course1]).
Proof. eexists. split; [reflexivity|]. split; reflexivity. Qed.

Lemma list_stale_after_update_witness :
  MainView_get_queryset course_search (request "GET" None ∅)
    (final_state (on_world (CourseUpdateView course_form
                              (request "POST" (Some alice) course_post) 1)
                           (mkProcess w0 None)))
  = Ok (Some [course1])
       (final_state (on_world (CourseUpdateView course_form
                                 (request "POST" (Some alice) course_post) 1)
                              (mkProcess w0 None))).
Proof.
  apply (list_stale_after_update course_form course_search
           (request "GET" None ∅) (request "POST" (Some alice) course_post) 1
           [course1] (mkProcess w0 None)).
  - reflexivity.
  - apply (bool_decide_unpack _). reflexivity.
Defined.

Lemma list_after_create_witness :
  MainView_get_queryset course_search (request "GET" None ∅)
    (mkProcess
       (final_state (CourseCreateView course_form
                       (request "POST" (Some alice) course_post) w0))
       (Some [course1]))
  = Ok (Some [course1])
       (mkProcess
          (set_cache
             (<["courses" := CachedCourses [course1]]>
                (cache (final_state
                          (CourseCreateView course_form
                             (request "POST" (Some alice) course_post) w0))))
             (final_state (CourseCreateView course_form
                             (request "POST" (Some alice) course_post) w0)))
          (Some [course1])).
Proof.
  apply (list_after_create course_form course_search
           (request "GET" None ∅) (request "POST" (Some alice) course_post)
           2 w0 _ (Some [course1])).
  - reflexivity.
  - apply (bool_decide_unpack _). reflexivity.
Defined.

Lemma favourites_listed_witness :
  ∃ p1,
    FavouriteView_get_queryset course_search (request "GET" None ∅)
      (mkSession {["favourites" := SList [1; 8]]} None false)
      (mkProcess w0 None)
    = Ok (Some (filter (λ c, course_pk c ∈ [1; 8]) [course1])) p1
    ∧ db (world p1) = db0.
Proof.
  apply (favourites_listed course_search (request "GET" None ∅)
           (mkSession {["favourites" := SList [1; 8]]} None false)
           [1; 8] (mkProcess w0 None)).
  - apply (bool_decide_unpack _). reflexivity.
  - intros ls. discriminate.
  - left. reflexivity.
Defined.

Lemma booking_round_trip_witness :
  ∃ left,
    remove_booking (request "POST" None ∅) 3
      (final_state (add_booking (request "POST" None ∅) 3
                      (mkSession {["favourites" := SList [3; 1]]} None false)))
    = Ok (redirect (reverse "index" []))
         (mkSession (<["favourites" := SList left]>
                       {["favourites" := SList [3; 1]]}) None true)
    ∧ left ≡ₚ [3; 1]
    ∧ (3 ∉ [3; 1] → left = [3; 1])
    ∧ (3 ∈ [3; 1] → 3 ∈ left).
Proof.
  assert (∀ str, session_data (mkSession {["favourites" := SList [3; 1]]}
                                         None false) !! "favourites"
                 ≠ Some (SStr str)) as Hlist by (intros str; discriminate).
  exact (booking_round_trip (request "POST" None ∅) 3
           (mkSession {["favourites" := SList [3; 1]]} None false)
           eq_refl Hlist).
Defined.

Lemma favourite_after_add_witness :
  ∃ rows p1,
    FavouriteView_get_queryset course_search (request "GET" None ∅)
      (final_state (add_booking (request "POST" None ∅) 1
                      (mkSession ∅ None false)))
      (mkProcess w0 None)
    = Ok (Some rows) p1
    ∧ course1 ∈ rows.
Proof.
  apply (favourite_after_add course_search (request "POST" None ∅)
           (request "GET" None ∅) 1 (mkSession ∅ None false)
           (mkProcess w0 None) course1).
  - reflexivity.
  - intros str. discriminate.
  - apply (bool_decide_unpack _). reflexivity.
  - intros ls. discriminate.
  - left.
  - reflexivity.
Defined.

End Runs.
End LearningExtra.

Module AuthAppExtra.
Import Framework AuthApp AuthAppSpec.

Section Pupils.

Lemma filter_all {A} (P : A → Prop) `{∀ x, Decision (P x)} (l : list A) :
  (∀ x, x ∈ l → P x) → filter P l = l.
Proof.
  induction l as [|x l IH]; intros Hall; [done|].
  rewrite filter_cons, decide_True by (apply Hall; left).
  f_equal. apply IH. intros y Hy. apply Hall. by right.
Qed.

Lemma filter_none {A} (P : A → Prop) `{∀ x, Decision (P x)} (l : list A) :
  (∀ x, x ∈ l → ¬ P x) → filter P l = [].
Proof.
  induction l as [|x l IH]; intros Hnone; [done|].
  rewrite filter_cons, decide_False by (apply Hnone; left).
  apply IH. intros y Hy. apply Hnone. by right.
Qed.

(** Setting the groups a user already has changes nothing. *)
Lemma groups_set_again (uid : Z) (objs : list Group) (d : DB) :
  groups_set uid objs (groups_set uid objs d) = groups_set uid objs d.
Proof.
  set (d1 := groups_set uid objs d).
  assert (∀ g, g ∈ group_pks_of d1 uid ↔ g ∈ remove_dups (group_pk <$> objs))
    as Hmem.
  { intros g. unfold d1. rewrite groups_set_member. by rewrite elem_of_remove_dups. }
  clearbody d1.
  assert (filter (λ g, g ∉ remove_dups (group_pk <$> objs))
                 (group_pks_of d1 uid) = []) as Hremoved.
  { apply filter_none. intros g Hg Hn. apply Hn. by apply Hmem. }
  assert (filter (λ g, g ∉ group_pks_of d1 uid)
                 (remove_dups (group_pk <$> objs)) = []) as Hadded.
  { apply filter_none. intros g Hg Hn. apply Hn. by apply Hmem. }
  unfold groups_set, set_user_groups. simpl.
  rewrite Hremoved, Hadded. simpl. rewrite app_nil_r.
  rewrite filter_all; [by destruct d1|].
  intros ug _ [_ Hin]. by apply elem_of_nil in Hin.
Qed.

(** X21. The receiver is idempotent: run again for the same new user, it
    leaves the tables as its first run left them. *)
Theorem grant_pupil_rights_idempotent (instance : User) (d : DB) :
  grant_pupil_rights instance true (grant_pupil_rights instance true d)
  = grant_pupil_rights instance true d.
Proof.
  unfold grant_pupil_rights.
  change (Group_filter (groups_set (user_pk instance) (Group_filter d "Ученик") d)
                       "Ученик")
    with (Group_filter d "Ученик").
  apply groups_set_again.
Qed.

Section Enrolment.
Variable receiver_raises : SignalEvent → bool.

(** X22. From registration to enrolment.  When the site has a group named
    'Ученик' that carries [learning.add_tracking], an active user for whom
    the receiver has run as newly created holds that permission, and
    [enroll] never refuses that user. *)
Theorem new_pupil_may_enroll (instance : User) (d : DB) (g : Group) :
  g ∈ groups d →
  group_name g = "Ученик" →
  "learning.add_tracking" ∈ group_permissions g →
  is_active instance = true →
  let d' := grant_pupil_rights instance true d in
  has_perm d' instance "learning.add_tracking" = true
  ∧ ∀ (req : Request) (course_id : Z) (w w' : World),
      user req = Some instance → db w = d' →
      Learning.enroll receiver_raises req course_id w ≠ Raise PermissionDenied w'.
Proof.
  intros Hg Hname Hperm Hactive. cbv zeta.
  assert (has_perm (grant_pupil_rights instance true d) instance
                   "learning.add_tracking" = true) as Hhas.
  { unfold has_perm. rewrite Hactive. simpl. apply orb_true_iff. right.
    apply bool_decide_eq_true. apply elem_of_app. right.
    unfold group_perms. apply list_elem_of_bind. exists g. split; [done|].
    apply list_elem_of_filter. split; [|done].
    apply grant_pupil_rights_spec_member. by exists g. }
  split; [done|]. intros req course_id w w' Hu Hdb.
  rewrite (LearningSpec.enroll_cases _ _ _ instance) by done.
  rewrite Hdb, Hhas. case_bool_decide; [done|].
  pose proof (LearningSpec.enroll_body_outcome receiver_raises instance course_id w)
    as Hbody.
  unfold atomic in *. run_view.
  unfold Learning.bulk_create, Learning.Signal_send, db_write in *. run_view.
  repeat (case_match; simplify_eq/=; try done).
Qed.

(** X23. Without a group of that name the receiver leaves a new user who is no
    superuser and holds no permission of their own without the
    permission, and [enroll] refuses that user. *)
Theorem new_user_without_group_refused (instance : User) (d : DB)
    (req : Request) (course_id : Z) (w : World) :
  Group_filter d "Ученик" = [] →
  is_superuser instance = false →
  "learning.add_tracking" ∉ user_permissions instance →
  user req = Some instance →
  db w = grant_pupil_rights instance true d →
  Learning.enroll receiver_raises req course_id w = Raise PermissionDenied w.
Proof.
  intros Hnone Hsuper Hown Hu Hdb.
  rewrite (LearningSpec.enroll_cases _ _ _ instance) by done.
  assert (group_pks_of (db w) (user_pk instance) = []) as Hgroups.
  { destruct (group_pks_of (db w) (user_pk instance)) as [|gid gs] eqn:Hg; [done|].
    assert (gid ∈ group_pks_of (db w) (user_pk instance)) as Hin
      by (rewrite Hg; left).
    rewrite Hdb in Hin. apply grant_pupil_rights_spec_member in Hin
      as (g0 & Hg0 & Hn0 & _).
    assert (g0 ∈ Group_filter d "Ученик") as Hf
      by (by apply list_elem_of_filter).
    rewrite Hnone in Hf. by apply elem_of_nil in Hf. }
  assert (has_perm (db w) instance "learning.add_tracking" = false) as ->; [|done].
  unfold has_perm. rewrite Hsuper. simpl.
  apply andb_false_iff. right. apply bool_decide_eq_false.
  unfold group_perms. rewrite Hgroups.
  rewrite (filter_none (λ g, group_pk g ∈ [])).
  - by rewrite app_nil_r.
  - intros g0 _ Hin. by apply elem_of_nil in Hin.
Qed.

End Enrolment.
End Pupils.

Section LoginMail.
Variable REMEMBER_KEY : string.
Variable REMEMBER_AGE : Z.
Variable render_to_string : string → string → string.
Variable LoginView_form_valid : Request → M LoginState Response.
Variable datetime_now : string.
Variable timezone_now : string.

Local Abbreviation form_valid :=
  (UserLoginView_form_valid REMEMBER_KEY REMEMBER_AGE render_to_string
                            LoginView_form_valid datetime_now timezone_now).

(** X24. One message per login.  When the request names the user, the login of
    the parent class is run on a state whose outbox has exactly one more
    message, an HTML message addressed to that name and to nobody else;
    and when [is_remember] is neither 'on' nor 'off' the session it is run
    on is the session of the request, untouched. *)
Theorem login_sends_one_email (req : Request) (st : LoginState)
    (username : string) :
  POST req !! "username" = Some username →
  ∃ st1 email,
    form_valid req st = LoginView_form_valid req st1 ∧
    outbox st1 = outbox st ++ [email] ∧
    to email = [username] ∧ content_subtype email = "html" ∧
    (POST req !! "is_remember" ≠ Some "on" →
     POST req !! "is_remember" ≠ Some "off" →
     session st1 = session st).
Proof.
  intros Hname.
  unfold UserLoginView_form_valid, send_login_user_email, on_session. run_view.
  rewrite Hname.
  case_bool_decide as Hon; [|case_bool_decide as Hoff]; simpl;
    eexists _, _; (split; [reflexivity|]); simpl; repeat split; try done.
Qed.

(** X25. A login request without the field 'username' raises [KeyError]: no
    message is handed to the mail backend and the login of the parent
    class is not run, whatever [is_remember] says. *)
Theorem login_without_username (req : Request) (st : LoginState) :
  POST req !! "username" = None →
  ∃ st1, form_valid req st = Raise KeyError st1 ∧ outbox st1 = outbox st.
Proof.
  intros Hname.
  unfold UserLoginView_form_valid, send_login_user_email, on_session. run_view.
  rewrite Hname.
  case_bool_decide; [|case_bool_decide]; simpl; by eexists.
Qed.

End LoginMail.

Section Runs.
Import Sample.

Lemma new_pupil_may_enroll_witness :
  has_perm (grant_pupil_rights eve true db0) eve "learning.add_tracking" = true.
Proof.
  apply (new_pupil_may_enroll (λ _, false) eve db0 pupil).
  - left.
  - reflexivity.
  - left.
  - reflexivity.
Defined.

Lemma new_user_without_group_refused_witness :
  Learning.enroll (λ _, false) (request "POST" (Some eve) ∅) 1
    (mkWorld (grant_pupil_rights eve true (mkDB [author] [] [] [] [] []))
             ∅ [] [])
  = Raise PermissionDenied
      (mkWorld (grant_pupil_rights eve true (mkDB [author] [] [] [] [] []))
               ∅ [] []).
Proof.
  apply (new_user_without_group_refused (λ _, false) eve
           (mkDB [author] [] [] [] [] [])).
  - reflexivity.
  - reflexivity.
  - apply not_elem_of_nil.
  - reflexivity.
  - reflexivity.
Defined.

Lemma login_sends_one_email_witness :
  ∃ st1 email,
    login_run "maybe" = login_parent (request "POST" None (login_post "maybe")) st1
    ∧ outbox st1 = outbox login_state0 ++ [email]
    ∧ to email = ["bob@example.com"] ∧ content_subtype email = "html"
    ∧ (POST (request "POST" None (login_post "maybe")) !! "is_remember" ≠ Some "on" →
       POST (request "POST" None (login_post "maybe")) !! "is_remember" ≠ Some "off" →
       session st1 = session login_state0).
Proof.
  apply (login_sends_one_email "remember" 1209600 (λ _ message, message)
           login_parent "2024-09-01T10:00:00" "2024-09-01T07:00:00+00:00"
           (request "POST" None (login_post "maybe")) login_state0
           "bob@example.com").
  reflexivity.
Defined.

Lemma login_without_username_witness :
  ∃ st1,
    UserLoginView_form_valid "remember" 1209600 (λ _ message, message)
      login_parent "2024-09-01T10:00:00" "2024-09-01T07:00:00+00:00"
      (request "POST" None {["is_remember" := "on"]}) login_state0
    = Raise KeyError st1
    ∧ outbox st1 = outbox login_state0.
Proof.
  apply (login_without_username "remember" 1209600 (λ _ message, message)
           login_parent "2024-09-01T10:00:00" "2024-09-01T07:00:00+00:00"
           (request "POST" None {["is_remember" := "on"]}) login_state0).
  reflexivity.
Defined.

End Runs.

End AuthAppExtra.
